(** * Roblox clothing generator: the dual-canvas editor, its texture
    synchronizer and the logo compositing pipeline of [src/app.py].

    The editor is the HTML/JS block returned by [get_editor_html]; the
    compositing pipeline is the Python code above it.  Both are embedded
    shallowly: JS objects that are mutated in place become records threaded
    through the functions, JS numbers are IEEE-754 doubles ([float]), the
    dictionaries of per-face canvases are finite maps, and the drawing
    primitives of the libraries the page loads (Fabric.js, the Canvas 2D
    context, Pillow's Lanczos filter) are section variables. *)

From Stdlib Require Import ZArith List String Ascii Bool Lia PrimFloat Uint63.
From stdpp Require Import gmap strings list.

Local Open Scope string_scope.
Set Warnings "-inexact-float".

(** ** Pixels and bitmaps *)

Record RGBA := mkRGBA { red : Z; green : Z; blue : Z; alpha : Z }.

(** A bitmap maps a pixel position (column, row) to its colour. *)
Definition Bitmap : Type := Z -> Z -> RGBA.

Definition hexval (a : ascii) : Z :=
  let n := Z.of_nat (nat_of_ascii a) in
  if (48 <=? n)%Z && (n <=? 57)%Z then (n - 48)%Z
  else if (97 <=? n)%Z && (n <=? 102)%Z then (n - 87)%Z
  else if (65 <=? n)%Z && (n <=? 70)%Z then (n - 55)%Z
  else 0%Z.

(** CSS colours as the page writes them: ["#rrggbb"] is opaque, everything
    else the page uses (['transparent']) is transparent black. *)
Definition cssColor (s : string) : RGBA :=
  match s with
  | String "#" (String r1 (String r0 (String g1 (String g0
      (String b1 (String b0 EmptyString)))))) =>
      mkRGBA (16 * hexval r1 + hexval r0) (16 * hexval g1 + hexval g0)
             (16 * hexval b1 + hexval b0) 255
  | _ => mkRGBA 0 0 0 0
  end.

(** JS numbers.  [num] injects the integer literals of the tables. *)
Definition num (z : Z) : float :=
  if (z <? 0)%Z then PrimFloat.opp (of_uint63 (Uint63.of_Z (- z)))
  else of_uint63 (Uint63.of_Z z).

(** ** Constants and zone tables *)

Definition CANVAS_W : Z := 585.
Definition CANVAS_H : Z := 600.

Record Region := mkRegion { rx : Z; ry : Z; rw : Z; rh : Z }.

Record Zone := mkZone {
  zx : Z; zy : Z; zw : Z; zh : Z;
  zcolor : string; zlabel : string; zlabelY : Z }.

Definition DROP_ZONES : list (string * Zone) :=
  [ ("torso_front", mkZone 128 128 128 128 "#4CAF50" "FRONT" (-20));
    ("torso_back",  mkZone 327 128 128 128 "#4CAF50" "BACK" (-20));
    ("right_arm",   mkZone 0   323 192 236 "#2196F3" "R. ARM/LEG" (-20));
    ("left_arm",    mkZone 393 323 192 236 "#FF9800" "L. ARM/LEG" (-20)) ].

Inductive TextureSource := src_shirt | src_pants | src_none.

Record BodyPart := mkBodyPart {
  size : float * float * float;
  position : float * float * float;
  textureSource : TextureSource;
  faces : list (string * option Region) }.

Definition BODY_PARTS : list (string * BodyPart) :=
  [ ("torso", mkBodyPart (2, 2, 1)%float (0, 0, 0)%float src_shirt
      [ ("front",  Some (mkRegion 128 128 128 128));
        ("back",   Some (mkRegion 327 128 128 128));
        ("right",  Some (mkRegion 64  128 64  128));
        ("left",   Some (mkRegion 256 128 64  128));
        ("top",    Some (mkRegion 128 0   128 64));
        ("bottom", Some (mkRegion 128 256 128 64)) ]);
    ("rightArm", mkBodyPart (1, 2, 1)%float (-1.5, 0, 0)%float src_shirt
      [ ("front",  Some (mkRegion 64  388 64 128));
        ("back",   Some (mkRegion 129 388 64 128));
        ("right",  Some (mkRegion 0   388 64 128));
        ("left",   Some (mkRegion 128 388 64 128));
        ("top",    Some (mkRegion 64  323 64 64));
        ("bottom", Some (mkRegion 64  516 64 43)) ]);
    ("leftArm", mkBodyPart (1, 2, 1)%float (1.5, 0, 0)%float src_shirt
      [ ("front",  Some (mkRegion 455 388 64 128));
        ("back",   Some (mkRegion 520 388 64 128));
        ("right",  Some (mkRegion 391 388 64 128));
        ("left",   Some (mkRegion 519 388 64 128));
        ("top",    Some (mkRegion 455 323 64 64));
        ("bottom", Some (mkRegion 455 516 64 43)) ]);
    ("rightLeg", mkBodyPart (1, 2, 1)%float (-0.5, -2, 0)%float src_pants
      [ ("front",  Some (mkRegion 64  388 64 128));
        ("back",   Some (mkRegion 129 388 64 128));
        ("right",  Some (mkRegion 0   388 64 128));
        ("left",   Some (mkRegion 128 388 64 128));
        ("top",    Some (mkRegion 64  323 64 64));
        ("bottom", Some (mkRegion 64  516 64 43)) ]);
    ("leftLeg", mkBodyPart (1, 2, 1)%float (0.5, -2, 0)%float src_pants
      [ ("front",  Some (mkRegion 455 388 64 128));
        ("back",   Some (mkRegion 520 388 64 128));
        ("right",  Some (mkRegion 391 388 64 128));
        ("left",   Some (mkRegion 519 388 64 128));
        ("top",    Some (mkRegion 455 323 64 64));
        ("bottom", Some (mkRegion 455 516 64 43)) ]);
    ("head", mkBodyPart (1.2, 1.2, 1.2)%float (0, 1.6, 0)%float src_none
      [ ("front", None); ("back", None); ("right", None);
        ("left", None); ("top", None); ("bottom", None) ]) ].

Definition FACE_ORDER : list string :=
  [ "right"; "left"; "top"; "bottom"; "front"; "back" ].

Definition FIT_ZONES : list (string * Region) :=
  [ ("front", mkRegion 128 128 128 128);
    ("back",  mkRegion 327 128 128 128);
    ("r_arm", mkRegion 64  388 64  128);
    ("l_arm", mkRegion 455 388 64  128) ].

(** Property access [obj[key]] on the literal tables. *)
Fixpoint assoc {A} (k : string) (l : list (string * A)) : option A :=
  match l with
  | [] => None
  | (k', v) :: l' => if String.eqb k k' then Some v else assoc k l'
  end.

(** [part.faces[faceName]]: [null] and a missing key are both falsy. *)
Definition face_region (part : BodyPart) (faceName : string) : option Region :=
  match assoc faceName (faces part) with
  | Some (Some r) => Some r
  | _ => None
  end.

(** ** Fabric.js objects and canvases *)

Inductive ObjKind :=
  | TextObj (text : string) (fontSize : float) (fontWeight fill : string)
  | RectObj (fill stroke : string) (strokeWidth : float)
            (strokeDashArray : list float)
  | ImageObj (element : Bitmap).

(** A Fabric object.  [oid] stands for the identity of the JS object:
    [canvas.getActiveObject()], [canvas.remove(obj)] and
    [canvas.bringToFront(obj)] compare references. *)
Module FabricObject.
Record t := mk {
  oid : nat;
  kind : ObjKind;
  left : float;
  top : float;
  width : float;
  height : float;
  scaleX : float;
  scaleY : float;
  originX : string;
  opacity : float;
  selectable : bool;
  evented : bool;
  visible : bool;
  isGuide : bool }.
End FabricObject.

Abbreviation FObject := FabricObject.t.
Abbreviation oid := FabricObject.oid.
Abbreviation isGuide := FabricObject.isGuide.
Abbreviation visible := FabricObject.visible.

(** [obj.set('visible', v)] *)
Definition set_visible (v : bool) (o : FObject) : FObject :=
  FabricObject.mk (oid o) (FabricObject.kind o) (FabricObject.left o)
    (FabricObject.top o) (FabricObject.width o) (FabricObject.height o)
    (FabricObject.scaleX o) (FabricObject.scaleY o) (FabricObject.originX o)
    (FabricObject.opacity o) (FabricObject.selectable o)
    (FabricObject.evented o) v (isGuide o).

(** [obj.set({ left, top, scaleX, scaleY })] *)
Definition set_placement (l t sx sy : float) (o : FObject) : FObject :=
  FabricObject.mk (oid o) (FabricObject.kind o) l t
    (FabricObject.width o) (FabricObject.height o) sx sy
    (FabricObject.originX o) (FabricObject.opacity o)
    (FabricObject.selectable o) (FabricObject.evented o) (visible o)
    (isGuide o).

(** A [fabric.Canvas]: background colour and image, the stack [_objects]
    (bottom to top) and [_activeObject], a reference into the stack. *)
Record Canvas := mkCanvas {
  backgroundColor : string;
  backgroundImage : option FObject;
  objects : list FObject;
  activeObject : option nat }.

Definition is_oid (i : nat) (o : FObject) : bool := Nat.eqb (oid o) i.

(** [canvas.getActiveObject()] *)
Definition getActiveObject (c : Canvas) : option FObject :=
  match activeObject c with
  | Some i => List.find (is_oid i) (objects c)
  | None => None
  end.

(** [canvas.discardActiveObject()]; no listener is registered for the
    selection events it fires. *)
Definition discardActiveObject (c : Canvas) : Canvas :=
  mkCanvas (backgroundColor c) (backgroundImage c) (objects c) None.

(** [canvas.setActiveObject(obj)] *)
Definition setActiveObject (o : FObject) (c : Canvas) : Canvas :=
  mkCanvas (backgroundColor c) (backgroundImage c) (objects c) (Some (oid o)).

Definition with_objects (l : list FObject) (c : Canvas) : Canvas :=
  mkCanvas (backgroundColor c) (backgroundImage c) l (activeObject c).

Definition update_object (i : nat) (f : FObject -> FObject) (c : Canvas)
  : Canvas :=
  with_objects (List.map (fun o => if is_oid i o then f o else o) (objects c)) c.

(** [canvas.add(obj)] pushes on top of the stack. *)
Definition canvas_add (o : FObject) (c : Canvas) : Canvas :=
  with_objects (objects c ++ [o])%list c.

(** [canvas.remove(obj)]: the object leaves the stack; if it was the
    active object, the selection is dropped before [object:removed] fires. *)
Definition canvas_remove (i : nat) (c : Canvas) : Canvas :=
  mkCanvas (backgroundColor c) (backgroundImage c)
    (List.filter (fun x => negb (is_oid i x)) (objects c))
    (match activeObject c with
     | Some a => if Nat.eqb a i then None else Some a
     | None => None
     end).

(** [canvas.bringToFront(obj)]: the object is taken out of the stack and
    pushed on its end. *)
Definition bringToFront (i : nat) (c : Canvas) : Canvas :=
  with_objects
    (List.filter (fun x => negb (is_oid i x)) (objects c)
       ++ List.filter (is_oid i) (objects c))%list c.

(** The layers of a canvas are its objects that are not guides. *)
Definition layers (c : Canvas) : list FObject :=
  List.filter (fun o => negb (isGuide o)) (objects c).

(** Reference identity for a new object: an identifier not in use. *)
Definition fresh_oid (c : Canvas) : nat :=
  S (List.fold_right Nat.max 0 (List.map oid (objects c))).

(** ** Editor state *)

(** A per-face canvas together with the version counter of the
    [THREE.CanvasTexture] wrapping it ([needsUpdate = true] bumps it). *)
Record FaceTex := mkFaceTex { pixels : Bitmap; version : nat }.

Inductive Material := skinMaterial | faceMaterial (partName faceName : string).

Inductive Mode := shirt | pants.

(** The parts of the DOM that [switchMode] writes. *)
Record UI := mkUI {
  shirtHidden : bool;
  pantsHidden : bool;
  modeLabelText : string;
  modeLabelClass : string;
  torsoOnlyHidden : bool;
  legend : list (string * string) }.

(** [faceCanvases[partName][faceName]] is keyed here by the pair of names. *)
Record Editor := mkEditor {
  currentMode : Mode;
  shirtCanvas : Canvas;
  pantsCanvas : Canvas;
  faceCanvases : gmap (string * string) FaceTex;
  bodyMeshes : list (string * list Material);
  ui : UI }.

Definition getActiveCanvas (e : Editor) : Canvas :=
  match currentMode e with shirt => shirtCanvas e | pants => pantsCanvas e end.

(** The active canvas is mutated in place; here it is written back. *)
Definition setActiveCanvas (c : Canvas) (e : Editor) : Editor :=
  match currentMode e with
  | shirt => mkEditor (currentMode e) c (pantsCanvas e) (faceCanvases e)
               (bodyMeshes e) (ui e)
  | pants => mkEditor (currentMode e) (shirtCanvas e) c (faceCanvases e)
               (bodyMeshes e) (ui e)
  end.

Definition solid (c : RGBA) : Bitmap := fun _ _ => c.

(** [ctx.fillStyle = colour; ctx.fillRect(0, 0, 128, 128)] on a 128x128
    canvas with an opaque colour: every pixel of the canvas is replaced. *)
Definition fillRect (c : RGBA) (_ : Bitmap) : Bitmap := solid c.

Definition initial_fill (src : TextureSource) : RGBA :=
  match src with
  | src_pants => cssColor "#3d5a80"
  | _ => cssColor "#ffffff"
  end.

Definition shirt_legend : list (string * string) :=
  [ ("#4CAF50", "Torso"); ("#2196F3", "Right Arm"); ("#FF9800", "Left Arm") ].

Definition pants_legend : list (string * string) :=
  [ ("#2196F3", "Right Leg"); ("#FF9800", "Left Leg") ].

Definition switchMode (newMode : Mode) (e : Editor) : Editor :=
  match newMode, currentMode e with
  | shirt, shirt | pants, pants => e
  | shirt, pants =>
      mkEditor shirt (shirtCanvas e) (pantsCanvas e) (faceCanvases e)
        (bodyMeshes e)
        (mkUI false true "Currently editing: SHIRT (Torso + Arms)"
           "mode-indicator shirt" false shirt_legend)
  | pants, shirt =>
      mkEditor pants (shirtCanvas e) (pantsCanvas e) (faceCanvases e)
        (bodyMeshes e)
        (mkUI true false "Currently editing: PANTS (Legs)"
           "mode-indicator pants" true pants_legend)
  end.

(** ** Strings of the export dialogue *)

Definition isWhiteSpace (a : ascii) : bool :=
  let n := nat_of_ascii a in
  Nat.eqb n 9 || Nat.eqb n 10 || Nat.eqb n 11 || Nat.eqb n 12
  || Nat.eqb n 13 || Nat.eqb n 32 || Nat.eqb n 160.

Fixpoint trimStart (s : string) : string :=
  match s with
  | String a s' => if isWhiteSpace a then trimStart s' else s
  | EmptyString => EmptyString
  end.

Definition string_rev (s : string) : string :=
  string_of_list_ascii (List.rev (list_ascii_of_string s)).

Definition trimEnd (s : string) : string :=
  string_rev (trimStart (string_rev s)).

(** [String.prototype.trim] on code units below 256. *)
Definition trim (s : string) : string := trimEnd (trimStart s).

Definition lower_ascii (a : ascii) : ascii :=
  let n := nat_of_ascii a in
  if (Nat.leb 65 n && Nat.leb n 90)
     || (Nat.leb 192 n && Nat.leb n 222 && negb (Nat.eqb n 215))
  then ascii_of_nat (n + 32) else a.

Fixpoint toLowerCase (s : string) : string :=
  match s with
  | String a s' => String (lower_ascii a) (toLowerCase s')
  | EmptyString => EmptyString
  end.

Definition endsWith (s suffix : string) : bool :=
  let n := String.length s in
  let m := String.length suffix in
  Nat.leb m n && String.eqb (substring (n - m) m s) suffix.

(** Lines 617-622 of [downloadTexture]: the name under which the file is
    saved, from the answer typed into the prompt. *)
Definition exportFilename (filename defaultName : string) : string :=
  let filename :=
    match trim filename with EmptyString => defaultName | t => t end in
  if negb (endsWith (toLowerCase filename) ".png")
  then filename ++ ".png" else filename.

(** The filename chain in the words of the specification: trim, default
    if empty, append [.png] if the name does not already end with it. *)
Definition exportFilename_spec (filename defaultName : string) : string :=
  let trimmed := trim filename in
  let name := if String.eqb trimmed "" then defaultName else trimmed in
  if endsWith name ".png" then name else name ++ ".png".

Record Download := mkDownload { download : string; href : Bitmap }.

(** ** The compositing pipeline (Python, Pillow) *)

Definition ROBLOX_WIDTH : Z := 585.
Definition ROBLOX_HEIGHT : Z := 559.
Definition LOGO_X : Z := 231.
Definition LOGO_Y : Z := 74.
Definition LOGO_SIZE : Z := 128.
Definition PATTERN_SIZE : Z := 150.

(** An RGBA [PIL.Image]: its size (width, height) and its pixels. *)
Record Image := mkImage { im_size : Z * Z; getpixel : Z -> Z -> RGBA }.

(** [Image.new("RGBA", size, color)] *)
Definition Image_new (sz : Z * Z) (color : RGBA) : Image :=
  mkImage sz (fun _ _ => color).

Definition zrange (n : Z) : list Z := List.map Z.of_nat (List.seq 0 (Z.to_nat n)).

(** Sum of one band over all pixels, as [ImageStat.Stat] accumulates it. *)
Definition band_sum (band : RGBA -> Z) (im : Image) : Z :=
  List.fold_right
    (fun y acc =>
       List.fold_right (fun x acc' => band (getpixel im x y) + acc')%Z acc
         (zrange (fst (im_size im))))
    0%Z (zrange (snd (im_size im))).

(** [get_average_color]: the RGB conversion keeps the three colour bands;
    [stat.mean] divides each band's sum by the pixel count and [int]
    truncates, which on these non-negative values is the integer
    quotient. *)
Definition get_average_color (image : Image) : Z * Z * Z :=
  let count := (fst (im_size image) * snd (im_size image))%Z in
  ((band_sum red image / count)%Z,
   (band_sum green image / count)%Z,
   (band_sum blue image / count)%Z).

(** Pillow's byte blending ([DIV255] and [BLEND] of Paste.c). *)
Definition DIV255 (a : Z) : Z :=
  let tmp := (a + 128)%Z in Z.shiftr (Z.shiftr tmp 8 + tmp) 8.

Definition BLEND (mask in1 in2 : Z) : Z :=
  DIV255 (in1 * (255 - mask) + in2 * mask).

(** [base.paste(im, (x0, y0), mask=mask)] with an RGBA mask: inside the
    pasted box every band is blended with the mask's alpha. *)
Definition paste (base im : Image) (box : Z * Z) (mask : Image) : Image :=
  mkImage (im_size base)
    (fun x y =>
       let x0 := fst box in
       let y0 := snd box in
       if (x0 <=? x)%Z && (x <? x0 + fst (im_size im))%Z
          && (y0 <=? y)%Z && (y <? y0 + snd (im_size im))%Z
       then
         let o := getpixel base x y in
         let i := getpixel im (x - x0) (y - y0) in
         let m := alpha (getpixel mask (x - x0) (y - y0)) in
         mkRGBA (BLEND m (red o) (red i)) (BLEND m (green o) (green i))
                (BLEND m (blue o) (blue i)) (BLEND m (alpha o) (alpha i))
       else getpixel base x y).

Definition SHIFTFORDIV255 (a : Z) : Z := Z.shiftr (Z.shiftr a 8 + a) 8.

(** One pixel of [Image.alpha_composite] (AlphaComposite.c, 7 bits of
    extra precision): [src] over [dst]. *)
Definition composite_pixel (dst src : RGBA) : RGBA :=
  if (alpha src =? 0)%Z then dst
  else
    let blend := (alpha dst * (255 - alpha src))%Z in
    let outa255 := (alpha src * 255 + blend)%Z in
    let coef1 := (alpha src * 255 * 255 * 128 / outa255)%Z in
    let coef2 := (255 * 128 - coef1)%Z in
    let channel (c : RGBA -> Z) :=
      Z.shiftr (SHIFTFORDIV255 (c src * coef1 + c dst * coef2 + 128 * 128)) 7 in
    mkRGBA (channel red) (channel green) (channel blue)
           (SHIFTFORDIV255 (outa255 + 128)).

Definition size_eqb (a b : Z * Z) : bool :=
  (fst a =? fst b)%Z && (snd a =? snd b)%Z.

(** [Image.alpha_composite(im1, im2)]; [None] is the [ValueError] raised
    when the sizes differ. *)
Definition alpha_composite (im1 im2 : Image) : option Image :=
  if size_eqb (im_size im1) (im_size im2)
  then Some (mkImage (im_size im1)
               (fun x y => composite_pixel (getpixel im1 x y) (getpixel im2 x y)))
  else None.

Definition byte (z : Z) : Prop := (0 <= z <= 255)%Z.

Definition byte_pixel (p : RGBA) : Prop :=
  byte (red p) /\ byte (green p) /\ byte (blue p) /\ byte (alpha p).

Definition inside (sz : Z * Z) (x y : Z) : Prop :=
  (0 <= x < fst sz)%Z /\ (0 <= y < snd sz)%Z.

(** The pixels of an image are bytes. *)
Definition byte_image (im : Image) : Prop :=
  forall x y, inside (im_size im) x y -> byte_pixel (getpixel im x y).

(** ** Reference drawing primitives

    One concrete choice for the library primitives, used to run the model
    on examples: text has no extent, an object marks the pixel of row 0
    whose column is its identity, selection handles mark row 1, and
    [drawImage] samples the nearest source pixel and composites it over
    the destination. *)

Definition ref_measureText (_ : string) : float * float := (0, 0)%float.

Definition mark (c : RGBA) (px py : Z) (b : Bitmap) : Bitmap :=
  fun x y => if (x =? px)%Z && (y =? py)%Z then c else b x y.

Definition ref_paintObject (o : FObject) (b : Bitmap) : Bitmap :=
  mark (mkRGBA 0 0 0 255) (Z.of_nat (oid o)) 0 b.

Definition ref_paintControls (o : FObject) (b : Bitmap) : Bitmap :=
  mark (mkRGBA 0 0 255 255) (Z.of_nat (oid o)) 1 b.

Definition ref_drawImage (src : Bitmap) (r : Region) (dst : Bitmap) : Bitmap :=
  fun i j =>
    if (0 <=? i)%Z && (i <? 128)%Z && (0 <=? j)%Z && (j <? 128)%Z then
      let p := src (rx r + i * rw r / 128)%Z (ry r + j * rh r / 128)%Z in
      let d := dst i j in
      mkRGBA (BLEND (alpha p) (red d) (red p))
             (BLEND (alpha p) (green d) (green p))
             (BLEND (alpha p) (blue d) (blue p))
             (BLEND (alpha p) (alpha d) 255)
    else dst i j.

Definition ref_lanczos (im : Image) (_ : Z * Z) (x y : Z) : RGBA :=
  getpixel im 0 0.

Section Program.

(** Text metrics of the browser: width and height of a label. *)
Variable measureText : string -> float * float.
(** Fabric's [object.render(ctx)] for a visible object. *)
Variable paintObject : FObject -> Bitmap -> Bitmap.
(** What a rendering draws for the active object (selection handles). *)
Variable paintControls : FObject -> Bitmap -> Bitmap.
(** [ctx.drawImage(source, sx, sy, sw, sh, 0, 0, 128, 128)] onto a
    128x128 canvas, with the browser's resampling filter. *)
Variable drawImage : Bitmap -> Region -> Bitmap -> Bitmap.
(** Pillow's [Image.Resampling.LANCZOS] filter: the pixels of the resized
    image. *)
Variable lanczos : Image -> Z * Z -> Z -> Z -> RGBA.

(** *** Canvas set-up ([initCanvas]) *)

Definition guide_text (i : nat) (zone : Zone) : FObject :=
  FabricObject.mk i (TextObj (zlabel zone) 14 "bold" (zcolor zone))
    (num (zx zone) + num (zw zone) / 2)%float
    (num (zy zone)
     + num (if (zlabelY zone =? 0)%Z then (-20)%Z else zlabelY zone))%float
    (fst (measureText (zlabel zone))) (snd (measureText (zlabel zone)))
    1 1 "center" 1 false false true true.

Definition guide_rect (i : nat) (zone : Zone) : FObject :=
  FabricObject.mk i
    (RectObj "transparent" (zcolor zone) 2 [5; 5]%float)
    (num (zx zone)) (num (zy zone)) (num (zw zone)) (num (zh zone))
    1 1 "left" 1 false false true true.

Definition add_guides (c : Canvas) (entry : string * Zone) : Canvas :=
  let zone := snd entry in
  let c1 := canvas_add (guide_text (fresh_oid c) zone) c in
  canvas_add (guide_rect (fresh_oid c1) zone) c1.

(** The guides are added before the listeners are registered, so adding
    them triggers no synchronization. *)
Definition initCanvas : Canvas :=
  foldl add_guides (mkCanvas "#ffffff" None [] None) DROP_ZONES.

(** The callback of [fabric.Image.fromURL(TEMPLATE_URL, ...)]: the ghost
    template of natural size [w] x [h] becomes the background image. *)
Definition ghostLoaded (img : Bitmap) (w h : float) (c : Canvas) : Canvas :=
  let s := (num CANVAS_W / w / 1)%float in
  mkCanvas (backgroundColor c)
    (Some (FabricObject.mk 0 (ImageObj img) 0 0 w h s s "left" 0.3
             false false true false))
    (objects c) (activeObject c).

(** *** Rendering *)

Definition renderObject (b : Bitmap) (o : FObject) : Bitmap :=
  if visible o then paintObject o b else b.

Definition renderBackground (c : Canvas) : Bitmap :=
  let base := solid (cssColor (backgroundColor c)) in
  match backgroundImage c with
  | Some img => renderObject base img
  | None => base
  end.

Definition renderObjects (l : list FObject) (b : Bitmap) : Bitmap :=
  foldl renderObject b l.

(** [canvas.toCanvasElement()]: background, then the stack bottom to top,
    then whatever is drawn for an active object. *)
Definition toCanvasElement (c : Canvas) : Bitmap :=
  let b := renderObjects (objects c) (renderBackground c) in
  match getActiveObject c with
  | Some o => paintControls o b
  | None => b
  end.

(** [guides.forEach(obj => obj.set('visible', v))], where [guides] holds
    references to the objects of the stack with [isGuide]. *)
Definition set_guides_visible (v : bool) (c : Canvas) : Canvas :=
  with_objects
    (List.map (fun o => if isGuide o then set_visible v o else o) (objects c))
    c.

Definition getCleanCanvasElement (fabricCanvas : Canvas) : Bitmap * Canvas :=
  let c1 := set_guides_visible false fabricCanvas in
  let activeObj := getActiveObject c1 in
  let c2 := discardActiveObject c1 in
  let canvasElement := toCanvasElement c2 in
  let c3 := set_guides_visible true c2 in
  let c4 := match activeObj with
            | Some o => setActiveObject o c3
            | None => c3
            end in
  (canvasElement, c4).

(** *** The body rig ([faceCanvases], [faceTextures], materials) *)

Definition createFace (partName : string) (part : BodyPart)
    (acc : gmap (string * string) FaceTex * list Material) (faceName : string)
  : gmap (string * string) FaceTex * list Material :=
  match face_region part faceName with
  | None => (fst acc, (snd acc ++ [skinMaterial])%list)
  | Some _ =>
      (<[(partName, faceName) :=
           mkFaceTex (fillRect (initial_fill (textureSource part))
                        (solid (mkRGBA 0 0 0 0))) 1]> (fst acc),
       (snd acc ++ [faceMaterial partName faceName])%list)
  end.

Definition createPart
    (acc : gmap (string * string) FaceTex * list (string * list Material))
    (entry : string * BodyPart)
  : gmap (string * string) FaceTex * list (string * list Material) :=
  let r := foldl (createFace (fst entry) (snd entry)) (fst acc, []) FACE_ORDER in
  (fst r, (snd acc ++ [(fst entry, snd r)])%list).

Definition createBodyParts
  : gmap (string * string) FaceTex * list (string * list Material) :=
  foldl createPart (∅, []) BODY_PARTS.

(** *** Texture synchronization ([updateAllTextures]) *)

Definition redraw (source : Bitmap) (region : Region) (t : FaceTex) : FaceTex :=
  mkFaceTex (drawImage source region (fillRect (cssColor "#ffffff") (pixels t)))
            (S (version t)).

Definition sync_face (source : Bitmap) (partName : string) (part : BodyPart)
    (fc : gmap (string * string) FaceTex) (faceName : string)
  : gmap (string * string) FaceTex :=
  match face_region part faceName with
  | None => fc
  | Some region =>
      match fc !! (partName, faceName) with
      | None => fc
      | Some t => <[(partName, faceName) := redraw source region t]> fc
      end
  end.

Definition sync_part (shirtCanvasEl pantsCanvasEl : Bitmap)
    (fc : gmap (string * string) FaceTex) (entry : string * BodyPart)
  : gmap (string * string) FaceTex :=
  match textureSource (snd entry) with
  | src_shirt => foldl (sync_face shirtCanvasEl (fst entry) (snd entry)) fc FACE_ORDER
  | src_pants => foldl (sync_face pantsCanvasEl (fst entry) (snd entry)) fc FACE_ORDER
  | src_none => fc
  end.

Definition updateAllTextures (e : Editor) : Editor :=
  let shirtClean := getCleanCanvasElement (shirtCanvas e) in
  let pantsClean := getCleanCanvasElement (pantsCanvas e) in
  mkEditor (currentMode e) (snd shirtClean) (snd pantsClean)
    (foldl (sync_part (fst shirtClean) (fst pantsClean)) (faceCanvases e)
       BODY_PARTS)
    (bodyMeshes e) (ui e).

(** The page after its script has run: both canvases set up, the pants
    canvas hidden, the rig built. *)
Definition initEditor : Editor :=
  mkEditor shirt initCanvas initCanvas (fst createBodyParts)
    (snd createBodyParts)
    (mkUI false true "Currently editing: SHIRT (Torso + Arms)"
       "mode-indicator shirt" false shirt_legend).

(** *** Editing operations *)

(** The upload callback: the decoded image of natural size [w] x [h] is
    placed at (128, 128), scaled to width 128, added (which fires
    [object:added]), selected and brought to the front. *)
Definition uploadImage (element : Bitmap) (w h : float) (e : Editor) : Editor :=
  let canvas := getActiveCanvas e in
  let s := (128 / w / 1)%float in
  let img := FabricObject.mk (fresh_oid canvas) (ImageObj element)
               128 128 w h s s "left" 1 true true true false in
  let e1 := updateAllTextures (setActiveCanvas (canvas_add img canvas) e) in
  let canvas1 := bringToFront (oid img) (setActiveObject img (getActiveCanvas e1)) in
  updateAllTextures (setActiveCanvas canvas1 e1).

(** The result is the alert shown, if any, and the new state. *)
Definition fitToZone (zoneName : string) (e : Editor) : option string * Editor :=
  let canvas := getActiveCanvas e in
  match getActiveObject canvas with
  | None => (Some "Select an image first!", e)
  | Some activeObj =>
      match assoc zoneName FIT_ZONES with
      | None => (None, e)
      | Some zone =>
          let canvas1 :=
            update_object (oid activeObj)
              (set_placement (num (rx zone)) (num (ry zone))
                 (num (rw zone) / FabricObject.width activeObj)%float
                 (num (rh zone) / FabricObject.height activeObj)%float)
              canvas in
          let canvas2 := bringToFront (oid activeObj) canvas1 in
          (None, updateAllTextures (setActiveCanvas canvas2 e))
      end
  end.

Definition deleteSelected (e : Editor) : option string * Editor :=
  let canvas := getActiveCanvas e in
  match getActiveObject canvas with
  | None => (Some "Select an image to delete!", e)
  | Some activeObj =>
      if isGuide activeObj then (Some "Cannot delete guide elements!", e)
      else
        let e1 := updateAllTextures
                    (setActiveCanvas (canvas_remove (oid activeObj) canvas) e) in
        let canvas1 := discardActiveObject (getActiveCanvas e1) in
        (None, updateAllTextures (setActiveCanvas canvas1 e1))
  end.

(** [answer] is what [prompt] returns: [None] when the user cancels. *)
Definition downloadTexture (type : Mode) (answer : option string) (e : Editor)
  : option Download * Editor :=
  let canvas := match type with shirt => shirtCanvas e | pants => pantsCanvas e end in
  let clean := getCleanCanvasElement canvas in
  let e' := match type with
            | shirt => mkEditor (currentMode e) (snd clean) (pantsCanvas e)
                         (faceCanvases e) (bodyMeshes e) (ui e)
            | pants => mkEditor (currentMode e) (shirtCanvas e) (snd clean)
                         (faceCanvases e) (bodyMeshes e) (ui e)
            end in
  let defaultName := match type with
                     | shirt => "roblox_shirt_design"
                     | pants => "roblox_pants_design"
                     end in
  match answer with
  | None => (None, e')
  | Some filename =>
      (Some (mkDownload (exportFilename filename defaultName) (fst clean)), e')
  end.

(** *** Logo mode *)

(** [image.resize(size, Image.Resampling.LANCZOS)] *)
Definition resize (im : Image) (sz : Z * Z) : Image := mkImage sz (lanczos im sz).

Definition create_logo_mode_image (ai_image : Image) : Image :=
  let logo := resize ai_image (LOGO_SIZE, LOGO_SIZE) in
  let avg_color := get_average_color logo in
  let base := Image_new (ROBLOX_WIDTH, ROBLOX_HEIGHT)
                (mkRGBA (fst (fst avg_color)) (snd (fst avg_color))
                   (snd avg_color) 255) in
  paste base logo (LOGO_X, LOGO_Y) logo.

(** [template] is the file [TEMPLATE_FILENAME] opened and converted to
    RGBA, or [None] when opening it raises.  The boolean tells whether
    the warning was shown. *)
Definition apply_template_overlay (template : option Image) (base_image : Image)
  : Image * bool :=
  match template with
  | None => (base_image, true)
  | Some overlay =>
      let overlay :=
        if negb (size_eqb (im_size overlay) (ROBLOX_WIDTH, ROBLOX_HEIGHT))
        then resize overlay (ROBLOX_WIDTH, ROBLOX_HEIGHT) else overlay in
      match alpha_composite base_image overlay with
      | Some final => (final, false)
      | None => (base_image, true)
      end
  end.

(** The logo branch of [main]. *)
Definition logo_mode (template : option Image) (ai_image : Image) : Image :=
  fst (apply_template_overlay template (create_logo_mode_image ai_image)).

(** *** Pattern mode *)

(** [range(0, stop, step)] *)
Definition range_step (stop step : Z) : list Z :=
  List.map (fun k => (k * step)%Z) (zrange ((stop + step - 1) / step)).

(** [base.paste(im, (x0, y0))] without mask: the box is overwritten. *)
Definition paste_copy (base im : Image) (box : Z * Z) : Image :=
  mkImage (im_size base)
    (fun x y =>
       let x0 := fst box in
       let y0 := snd box in
       if (x0 <=? x)%Z && (x <? x0 + fst (im_size im))%Z
          && (y0 <=? y)%Z && (y <? y0 + snd (im_size im))%Z
       then getpixel im (x - x0) (y - y0)
       else getpixel base x y).

Definition create_pattern_mode_image (ai_image : Image) : Image :=
  let tile := resize ai_image (PATTERN_SIZE, PATTERN_SIZE) in
  let base := Image_new (ROBLOX_WIDTH, ROBLOX_HEIGHT) (mkRGBA 0 0 0 0) in
  foldl (fun base x =>
           foldl (fun base y => paste_copy base tile (x, y)) base
             (range_step ROBLOX_HEIGHT PATTERN_SIZE))
    base (range_step ROBLOX_WIDTH PATTERN_SIZE).

(** The pattern branch of [main]. *)
Definition pattern_mode (template : option Image) (ai_image : Image) : Image :=
  fst (apply_template_overlay template (create_pattern_mode_image ai_image)).

(** The file name of the download button of [main]: [.png] is appended
    unless the name ends with it. *)
Definition download_file_name (custom_name : string) : string :=
  if negb (endsWith custom_name ".png") then custom_name ++ ".png"
  else custom_name.

(** ** Predicates used in the statements *)


(** ** Face regions and the canvas bounds *)

Definition region_in_canvas (r : Region) : Prop :=
  (0 <= rx r /\ 0 <= ry r /\ 0 < rw r /\ 0 < rh r
   /\ rx r + rw r <= CANVAS_W /\ ry r + rh r <= CANVAS_H)%Z.

Definition region_in_canvasb (r : Region) : bool :=
  (0 <=? rx r)%Z && (0 <=? ry r)%Z && (0 <? rw r)%Z && (0 <? rh r)%Z
  && (rx r + rw r <=? CANVAS_W)%Z && (ry r + rh r <=? CANVAS_H)%Z.

Definition faces_in_canvasb (part : BodyPart) : bool :=
  forallb (fun f => match snd f with
                    | Some r => region_in_canvasb r
                    | None => true
                    end) (faces part).

(** ** Invariants of the reachable states *)

(** Every guide is visible: nothing but [getCleanCanvasElement] hides a
    guide, and it shows them again before it returns. *)
Definition guides_visibleb (c : Canvas) : bool :=
  forallb (fun o => implb (isGuide o) (visible o)) (objects c).

(** The active object is an object of the stack. *)
Definition active_validb (c : Canvas) : bool :=
  match activeObject c with
  | Some i => existsb (is_oid i) (objects c)
  | None => true
  end.

Fixpoint nodupb (l : list nat) : bool :=
  match l with
  | [] => true
  | x :: l' => negb (existsb (Nat.eqb x) l') && nodupb l'
  end.

(** Distinct objects of the stack have distinct identities. *)
Definition distinct_oidsb (c : Canvas) : bool :=
  nodupb (List.map oid (objects c)).

Definition canvas_ok (c : Canvas) : Prop :=
  guides_visibleb c && active_validb c && distinct_oidsb c = true.

(** Every face with a declared region has its canvas, as the set-up of
    the rig allocates them. *)
Definition face_allocatedb (fc : gmap (string * string) FaceTex)
    (entry : string * BodyPart) (faceName : string) : bool :=
  match face_region (snd entry) faceName with
  | Some _ => match fc !! (fst entry, faceName) with
              | Some _ => true
              | None => false
              end
  | None => true
  end.

Definition faces_allocated (fc : gmap (string * string) FaceTex) : Prop :=
  forallb (fun entry => forallb (face_allocatedb fc entry) FACE_ORDER)
    BODY_PARTS = true.

Definition editor_ok (e : Editor) : Prop :=
  canvas_ok (shirtCanvas e) /\ canvas_ok (pantsCanvas e)
  /\ faces_allocated (faceCanvases e).

(** The canvas with its guides deleted and nothing selected. *)
Definition without_guides (c : Canvas) : Canvas :=
  mkCanvas (backgroundColor c) (backgroundImage c) (layers c) None.

(** ** One synchronization, face by face

    What [updateAllTextures] does to the entry [o] of face [f] of [part],
    given the two rasters: the closed form of its two nested loops. *)

Definition shirtRaster (e : Editor) : Bitmap :=
  fst (getCleanCanvasElement (shirtCanvas e)).

Definition pantsRaster (e : Editor) : Bitmap :=
  fst (getCleanCanvasElement (pantsCanvas e)).

Definition face_update (shirtEl pantsEl : Bitmap) (part : BodyPart)
    (f : string) (o : option FaceTex) : option FaceTex :=
  if bool_decide (f ∈ FACE_ORDER) then
    match textureSource part, face_region part f with
    | src_shirt, Some r => redraw shirtEl r <$> o
    | src_pants, Some r => redraw pantsEl r <$> o
    | _, _ => o
    end
  else o.

(** The raster a part reads from. *)
Definition source_raster (e : Editor) (src : TextureSource) : option Bitmap :=
  match src with
  | src_shirt => Some (shirtRaster e)
  | src_pants => Some (pantsRaster e)
  | src_none => None
  end.

(** The Fabric image the upload callback creates for canvas [c]. *)
Definition uploaded (element : Bitmap) (w h : float) (c : Canvas) : FObject :=
  FabricObject.mk (fresh_oid c) (ImageObj element) 128 128 w h
    (128 / w / 1)%float (128 / w / 1)%float "left" 1 true true true false.

(** The placement [fitToZone] writes into the active object [L]. *)
Definition fitted (zone : Region) (L : FObject) : FObject :=
  set_placement (num (rx zone)) (num (ry zone))
    (num (rw zone) / FabricObject.width L)%float
    (num (rh zone) / FabricObject.height L)%float L.

(** The canvas a part reads from. *)
Definition source_canvas (e : Editor) (src : TextureSource) : option Canvas :=
  match src with
  | src_shirt => Some (shirtCanvas e)
  | src_pants => Some (pantsCanvas e)
  | src_none => None
  end.

(** The face textures show what the canvases hold: a synchronization
    would not change a pixel. *)
Definition textures_synced (e : Editor) : Prop :=
  forall k : string * string,
    pixels <$> faceCanvases (updateAllTextures e) !! k
    = pixels <$> faceCanvases e !! k.

(** JS strict equality [===] on numbers. *)
Definition js_eq (x y : float) : Prop := PrimFloat.eqb x y = true.

(** The integers [start, start + 1, ...], [len] of them. *)
Fixpoint zseq (start : Z) (len : nat) : list Z :=
  match len with
  | O => []
  | S k => start :: zseq (start + 1) k
  end.

(** The extent a layer of natural size [size] has on the canvas once it
    is fitted to a zone of extent [extent]: natural size times scale. *)
Definition fitted_extent (size extent : Z) : float :=
  (num size * (num extent / num size))%float.

(** The fitted extent is the zone's extent. *)
Definition fit_exactb (size extent : Z) : bool :=
  PrimFloat.eqb (fitted_extent size extent) (num extent).

(** The fitted extent is the zone's extent or the double just below it. *)
Definition fit_withinb (size extent : Z) : bool :=
  fit_exactb size extent
  || PrimFloat.eqb (fitted_extent size extent) (next_down (num extent)).

(** The natural sizes for which the fitted extent is checked. *)
Definition MAX_SIZE : Z := 65536.

(** Natural sizes singled out as exact: up to 48 pixels, the powers of
    two, and the sizes of the canvases and of the generated images. *)
Definition exact_size (w : Z) : Prop :=
  (1 <= w <= 48)%Z
  \/ (exists k, (0 <= k <= 16)%Z /\ w = (2 ^ k)%Z)
  \/ In w [559; 585; 600; 1024]%Z.

(** The pixel positions covered by the pasted logo. *)
Definition in_logo_box (x y : Z) : Prop :=
  (LOGO_X <= x < LOGO_X + LOGO_SIZE)%Z /\ (LOGO_Y <= y < LOGO_Y + LOGO_SIZE)%Z.

(** [q] is the mean of a band of sum [s] over [n] pixels, truncated. *)
Definition truncated_mean (s n q : Z) : Prop :=
  (n * q <= s < n * (q + 1))%Z.

(** The canvas that is not being edited. *)
Definition inactiveCanvas (e : Editor) : Canvas :=
  match currentMode e with shirt => pantsCanvas e | pants => shirtCanvas e end.

(** The ghost template as [ghostLoaded] makes it the background image. *)
Definition ghost_image (img : Bitmap) (w h : float) : FObject :=
  FabricObject.mk 0 (ImageObj img) 0 0 w h
    (num CANVAS_W / w / 1)%float (num CANVAS_W / w / 1)%float "left" 0.3
    false false true false.

(** * Properties *)

Lemma region_in_canvasb_sound r :
  region_in_canvasb r = true -> region_in_canvas r.
Proof.
  unfold region_in_canvasb, region_in_canvas.
  rewrite !andb_true_iff. lia.
Qed.

Lemma assoc_In {A} (k : string) (l : list (string * A)) (v : A) :
  assoc k l = Some v -> In (k, v) l.
Proof.
  induction l as [|[k' v'] l IH]; simpl; [discriminate|].
  destruct (String.eqb_spec k k') as [->|Hne].
  - intros [= ->]. now left.
  - intros H. right. now apply IH.
Qed.

Lemma face_region_In part face r :
  face_region part face = Some r -> In (face, Some r) (faces part).
Proof.
  unfold face_region. destruct (assoc face (faces part)) as [[r'|]|] eqn:E;
    try discriminate.
  intros [= ->]. now apply assoc_In.
Qed.

Lemma body_parts_in_canvas :
  forallb (fun entry => faces_in_canvasb (snd entry)) BODY_PARTS = true.
Proof. reflexivity. Qed.

(** C10: every declared face region of every body part lies inside the
    585x600 source canvas, so every source pixel of a per-face copy is a
    pixel of the canvas; and the right and left leg declare the face
    regions of the right and left arm, read from the pants sheet instead
    of the shirt sheet. *)
Theorem face_regions_in_bounds :
  (forall name part face r,
      In (name, part) BODY_PARTS ->
      face_region part face = Some r ->
      region_in_canvas r
      /\ forall x y, (rx r <= x < rx r + rw r)%Z -> (ry r <= y < ry r + rh r)%Z ->
                     (0 <= x < CANVAS_W)%Z /\ (0 <= y < CANVAS_H)%Z)
  /\ (exists arm leg,
        assoc "rightArm" BODY_PARTS = Some arm
        /\ assoc "rightLeg" BODY_PARTS = Some leg
        /\ faces leg = faces arm
        /\ textureSource arm = src_shirt /\ textureSource leg = src_pants)
  /\ (exists arm leg,
        assoc "leftArm" BODY_PARTS = Some arm
        /\ assoc "leftLeg" BODY_PARTS = Some leg
        /\ faces leg = faces arm
        /\ textureSource arm = src_shirt /\ textureSource leg = src_pants).
Proof.
  split; [|split].
  - intros name part face r Hin Hreg.
    assert (Hr : region_in_canvas r).
    { pose proof body_parts_in_canvas as Hall.
      rewrite forallb_forall in Hall. specialize (Hall _ Hin). simpl in Hall.
      unfold faces_in_canvasb in Hall. rewrite forallb_forall in Hall.
      specialize (Hall _ (face_region_In _ _ _ Hreg)). simpl in Hall.
      now apply region_in_canvasb_sound. }
    split; [exact Hr|]. unfold region_in_canvas in Hr. intros x y Hx Hy. lia.
  - eexists _, _. repeat split; reflexivity.
  - eexists _, _. repeat split; reflexivity.
Qed.

(** ** Rasterizing with the guides hidden *)

Lemma set_visible_restore o :
  visible o = true -> set_visible true (set_visible false o) = o.
Proof. destruct o; simpl; intros ->; reflexivity. Qed.

Lemma find_is_oid i l o : List.find (is_oid i) l = Some o -> oid o = i.
Proof.
  intros H. apply List.find_some in H as [_ H].
  unfold is_oid in H. now apply Nat.eqb_eq in H.
Qed.

Lemma find_is_oid_In i l o : List.find (is_oid i) l = Some o -> In o l.
Proof. intros H. now apply List.find_some in H as [H _]. Qed.

Lemma existsb_find i l :
  existsb (is_oid i) l = true -> exists o, List.find (is_oid i) l = Some o.
Proof.
  induction l as [|x l IH]; simpl; [discriminate|].
  destruct (is_oid i x); [eauto|]. exact IH.
Qed.

Lemma find_existsb i l o :
  List.find (is_oid i) l = Some o -> existsb (is_oid i) l = true.
Proof.
  intros H. apply existsb_exists. exists o. split.
  - now apply find_is_oid_In in H.
  - apply List.find_some in H. exact (proj2 H).
Qed.

Lemma find_map_oid i (f : FObject -> FObject) l :
  (forall o, oid (f o) = oid o) ->
  List.find (is_oid i) (List.map f l) = option_map f (List.find (is_oid i) l).
Proof.
  intros Hf. induction l as [|x l IH]; simpl; [reflexivity|].
  unfold is_oid at 1. rewrite Hf. fold (is_oid i x).
  destruct (is_oid i x); [reflexivity|]. exact IH.
Qed.

Lemma hide_guide_oid v o : oid (if isGuide o then set_visible v o else o) = oid o.
Proof. now destruct (isGuide o). Qed.

Lemma renderObjects_hidden_guides l b :
  renderObjects (List.map (fun o => if isGuide o then set_visible false o else o) l) b
  = renderObjects (List.filter (fun o => negb (isGuide o)) l) b.
Proof.
  unfold renderObjects. revert b.
  induction l as [|o l IH]; intros b; simpl; [reflexivity|].
  destruct (isGuide o) eqn:Hg; simpl; apply IH.
Qed.

Lemma show_hidden_guides l :
  forallb (fun o => implb (isGuide o) (visible o)) l = true ->
  List.map (fun o => if isGuide o then set_visible true o else o)
    (List.map (fun o => if isGuide o then set_visible false o else o) l) = l.
Proof.
  induction l as [|o l IH]; simpl; [reflexivity|].
  rewrite andb_true_iff. intros [Ho Hl]. f_equal; [|now apply IH].
  destruct (isGuide o) eqn:Hg; simpl.
  - rewrite Hg. now apply set_visible_restore.
  - now rewrite Hg.
Qed.

Lemma layers_after_toggle l :
  List.filter (fun o => negb (isGuide o))
    (List.map (fun o => if isGuide o then set_visible true o else o)
       (List.map (fun o => if isGuide o then set_visible false o else o) l))
  = List.filter (fun o => negb (isGuide o)) l.
Proof.
  induction l as [|o l IH]; simpl; [reflexivity|].
  destruct (isGuide o) eqn:Hg; simpl; repeat (rewrite Hg; simpl);
    rewrite IH; reflexivity.
Qed.

(** The raster of [getCleanCanvasElement] is the rendering of the
    background and the layers alone. *)
Lemma clean_raster c :
  fst (getCleanCanvasElement c) = renderObjects (layers c) (renderBackground c).
Proof.
  unfold getCleanCanvasElement, toCanvasElement, getActiveObject; simpl.
  apply renderObjects_hidden_guides.
Qed.

(** Under the invariant the canvas is handed back as it was. *)
Lemma clean_restores c : canvas_ok c -> snd (getCleanCanvasElement c) = c.
Proof.
  unfold canvas_ok. rewrite !andb_true_iff. intros [[Hg Ha] _].
  unfold getCleanCanvasElement, getActiveObject, set_guides_visible,
    with_objects, discardActiveObject, setActiveObject; simpl.
  unfold guides_visibleb in Hg. unfold active_validb in Ha.
  destruct c as [bg bgi objs [i|]]; simpl in *.
  - rewrite find_map_oid by (intros; apply hide_guide_oid).
    destruct (existsb_find _ _ Ha) as [o Ho]. rewrite Ho. simpl.
    rewrite show_hidden_guides by exact Hg.
    rewrite hide_guide_oid. now rewrite (find_is_oid _ _ _ Ho).
  - now rewrite show_hidden_guides by exact Hg.
Qed.

(** Rasterizing again after a first call gives the same raster, whatever
    the state of the canvas was. *)
Lemma clean_raster_again c :
  fst (getCleanCanvasElement (snd (getCleanCanvasElement c)))
  = fst (getCleanCanvasElement c).
Proof.
  rewrite !clean_raster.
  assert (Hl : layers (snd (getCleanCanvasElement c)) = layers c).
  { unfold getCleanCanvasElement, layers. simpl.
    destruct (getActiveObject _); simpl; apply layers_after_toggle. }
  assert (Hb : renderBackground (snd (getCleanCanvasElement c)) = renderBackground c).
  { unfold getCleanCanvasElement, renderBackground. simpl.
    now destruct (getActiveObject _). }
  now rewrite Hl, Hb.
Qed.

(** C4: the raster taken with the guides hidden is the rendering of the
    canvas with every guide deleted and nothing selected, whatever the
    guides and the layers are; without layers it is the bare background;
    and the canvas (visibility of every guide, selection) is afterwards
    as it was before the call. *)
Theorem clean_raster_excludes_guides (c : Canvas) :
  fst (getCleanCanvasElement c) = toCanvasElement (without_guides c)
  /\ fst (getCleanCanvasElement c) = renderObjects (layers c) (renderBackground c)
  /\ (layers c = [] -> fst (getCleanCanvasElement c) = renderBackground c)
  /\ (canvas_ok c -> snd (getCleanCanvasElement c) = c).
Proof.
  split; [|split; [|split]].
  - rewrite clean_raster. reflexivity.
  - apply clean_raster.
  - intros Hl. rewrite clean_raster, Hl. reflexivity.
  - apply clean_restores.
Qed.

(** ** The synchronization loop *)

Lemma sync_face_eq source p part fc f :
  sync_face source p part fc f !! (p, f)
  = match face_region part f with
    | Some r => redraw source r <$> fc !! (p, f)
    | None => fc !! (p, f)
    end.
Proof.
  unfold sync_face. destruct (face_region part f) as [r|]; [|reflexivity].
  destruct (fc !! (p, f)) as [t|] eqn:E; simpl.
  - now rewrite lookup_insert_eq.
  - now rewrite E.
Qed.

Lemma sync_face_ne source p part fc f k :
  k ≠ (p, f) -> sync_face source p part fc f !! k = fc !! k.
Proof.
  intros Hk. unfold sync_face.
  destruct (face_region part f) as [r|]; [|reflexivity].
  destruct (fc !! (p, f)) as [t|]; [|reflexivity].
  now rewrite lookup_insert_ne.
Qed.

Lemma sync_faces_other source p part fs fc p' f :
  p' ≠ p \/ f ∉ fs ->
  foldl (sync_face source p part) fc fs !! (p', f) = fc !! (p', f).
Proof.
  revert fc. induction fs as [|x fs IH]; intros fc H; simpl; [reflexivity|].
  rewrite IH.
  - apply sync_face_ne. intros [= -> ->]. destruct H as [H|H]; [congruence|].
    apply H. left.
  - destruct H as [H|H]; [now left|]. right. intros Hin. apply H. now right.
Qed.

Lemma sync_faces_hit source p part fs fc f :
  NoDup fs -> f ∈ fs ->
  foldl (sync_face source p part) fc fs !! (p, f)
  = match face_region part f with
    | Some r => redraw source r <$> fc !! (p, f)
    | None => fc !! (p, f)
    end.
Proof.
  revert fc. induction fs as [|x fs IH]; intros fc Hnd Hin; simpl.
  - inversion Hin.
  - apply NoDup_cons in Hnd as [Hx Hnd].
    destruct (decide (f = x)) as [->|Hne].
    + rewrite sync_faces_other by now right. apply sync_face_eq.
    + rewrite IH; [|exact Hnd|].
      * rewrite sync_face_ne; [reflexivity|]. intros [= ?]. contradiction.
      * apply elem_of_cons in Hin as [?|?]; [contradiction|assumption].
Qed.

Lemma FACE_ORDER_NoDup : NoDup FACE_ORDER.
Proof. apply (bool_decide_unpack _). vm_compute. exact I. Qed.

Lemma BODY_PARTS_NoDup : NoDup (List.map fst BODY_PARTS).
Proof. apply (bool_decide_unpack _). vm_compute. exact I. Qed.

Lemma sync_part_eq sh pa fc p part f :
  sync_part sh pa fc (p, part) !! (p, f) = face_update sh pa part f (fc !! (p, f)).
Proof.
  unfold sync_part, face_update. cbn [fst snd].
  destruct (bool_decide_reflect (f ∈ FACE_ORDER)) as [Hin|Hout].
  - destruct (textureSource part);
      [| |now destruct (face_region part f)];
      apply sync_faces_hit; auto using FACE_ORDER_NoDup.
  - destruct (textureSource part); [| |reflexivity];
      apply sync_faces_other; now right.
Qed.

Lemma sync_part_ne sh pa fc p part p' f :
  p' ≠ p -> sync_part sh pa fc (p, part) !! (p', f) = fc !! (p', f).
Proof.
  intros Hp. unfold sync_part. cbn [fst snd].
  destruct (textureSource part); [| |reflexivity];
    apply sync_faces_other; now left.
Qed.

Lemma assoc_None {A} (k : string) (l : list (string * A)) :
  k ∉ List.map fst l -> assoc k l = None.
Proof.
  induction l as [|[k' v] l IH]; simpl; [reflexivity|].
  intros H. destruct (String.eqb_spec k k') as [->|Hne].
  - exfalso. apply H. left.
  - apply IH. intros Hin. apply H. now right.
Qed.

(** The closed form of the loop over the parts. *)
Lemma sync_parts_lookup sh pa parts fc p f :
  NoDup (List.map fst parts) ->
  foldl (sync_part sh pa) fc parts !! (p, f)
  = match assoc p parts with
    | Some part => face_update sh pa part f (fc !! (p, f))
    | None => fc !! (p, f)
    end.
Proof.
  revert fc. induction parts as [|[n part0] parts IH]; intros fc Hnd; simpl;
    [reflexivity|].
  simpl in Hnd. apply NoDup_cons in Hnd as [Hn Hnd].
  rewrite IH by exact Hnd.
  destruct (String.eqb_spec p n) as [->|Hne].
  - rewrite assoc_None by exact Hn. apply sync_part_eq.
  - rewrite sync_part_ne by exact Hne. reflexivity.
Qed.

Lemma updateAllTextures_lookup e p f :
  faceCanvases (updateAllTextures e) !! (p, f)
  = match assoc p BODY_PARTS with
    | Some part =>
        face_update (shirtRaster e) (pantsRaster e) part f
          (faceCanvases e !! (p, f))
    | None => faceCanvases e !! (p, f)
    end.
Proof.
  unfold updateAllTextures, shirtRaster, pantsRaster. cbn [faceCanvases].
  apply sync_parts_lookup, BODY_PARTS_NoDup.
Qed.

Lemma assoc_In_NoDup {A} (k : string) (v : A) (l : list (string * A)) :
  NoDup (List.map fst l) -> In (k, v) l -> assoc k l = Some v.
Proof using Type.
  induction l as [|[k' v'] l IH]; simpl; [intros _ []|].
  intros Hnd [Heq|Hin].
  - injection Heq as -> ->. now rewrite String.eqb_refl.
  - apply NoDup_cons in Hnd as [Hk Hnd].
    destruct (String.eqb_spec k k') as [->|Hne]; [|now apply IH].
    exfalso. apply Hk. apply list_elem_of_In. apply in_map_iff.
    exists (k', v). split; [reflexivity|exact Hin].
Qed.

(** Every face with a declared region is one of the six canonical faces. *)
Lemma declared_face_in_order name part face r :
  In (name, part) BODY_PARTS -> face_region part face = Some r ->
  face ∈ FACE_ORDER.
Proof.
  intros Hin Hreg. apply face_region_In in Hreg.
  assert (Hall : forallb (fun entry =>
            forallb (fun fr => bool_decide (fst fr ∈ FACE_ORDER)) (faces (snd entry)))
            BODY_PARTS = true) by (vm_compute; reflexivity).
  rewrite forallb_forall in Hall. specialize (Hall _ Hin). simpl in Hall.
  rewrite forallb_forall in Hall. specialize (Hall _ Hreg). simpl in Hall.
  now apply bool_decide_eq_true in Hall.
Qed.

Lemma allocated_lookup fc name part face r :
  faces_allocated fc -> In (name, part) BODY_PARTS ->
  face_region part face = Some r ->
  exists t, fc !! (name, face) = Some t.
Proof.
  intros Hall Hin Hreg. unfold faces_allocated in Hall.
  rewrite forallb_forall in Hall. specialize (Hall _ Hin).
  rewrite forallb_forall in Hall.
  pose proof (declared_face_in_order _ _ _ _ Hin Hreg) as Hf.
  apply list_elem_of_In in Hf. specialize (Hall _ Hf).
  unfold face_allocatedb in Hall. simpl in Hall. rewrite Hreg in Hall.
  destruct (fc !! (name, face)) as [t|]; [eauto|discriminate].
Qed.

(** ** The invariants are kept by the canvas operations *)

Lemma nodupb_NoDup (l : list nat) : nodupb l = true <-> NoDup l.
Proof.
  induction l as [|x l IH]; simpl.
  - split; [constructor | reflexivity].
  - rewrite andb_true_iff, negb_true_iff, IH, NoDup_cons.
    assert (Hx : existsb (Nat.eqb x) l = false <-> x ∉ l).
    { rewrite <- not_true_iff_false, existsb_exists. split.
      - intros H Hin. apply H. exists x. split.
        + now apply list_elem_of_In.
        + apply Nat.eqb_refl.
      - intros H [y [Hin Heq]]. apply Nat.eqb_eq in Heq. subst y.
        apply H. now apply list_elem_of_In. }
    tauto.
Qed.

Lemma canvas_ok_iff c :
  canvas_ok c
  <-> guides_visibleb c = true /\ active_validb c = true
      /\ NoDup (List.map oid (objects c)).
Proof.
  unfold canvas_ok, distinct_oidsb.
  rewrite !andb_true_iff, nodupb_NoDup. tauto.
Qed.

Lemma le_fold_max x l : In x l -> x <= List.fold_right Nat.max 0 l.
Proof.
  induction l as [|y l IH]; simpl; [intros []|].
  intros [->|H]; [lia|]. specialize (IH H). lia.
Qed.

Lemma fresh_oid_not_in c : fresh_oid c ∉ List.map oid (objects c).
Proof.
  intros H. apply list_elem_of_In, le_fold_max in H.
  unfold fresh_oid in H. lia.
Qed.

Lemma existsb_is_oid_In i l :
  existsb (is_oid i) l = true <-> i ∈ List.map oid l.
Proof.
  rewrite existsb_exists, list_elem_of_In, in_map_iff. unfold is_oid.
  split; intros [o [H1 H2]]; exists o.
  - apply Nat.eqb_eq in H2. split; [exact H2 | exact H1].
  - split; [exact H2|]. apply Nat.eqb_eq. exact H1.
Qed.

Lemma canvas_ok_add o c :
  canvas_ok c -> oid o = fresh_oid c ->
  implb (isGuide o) (visible o) = true ->
  canvas_ok (canvas_add o c).
Proof.
  rewrite !canvas_ok_iff. intros (Hg & Ha & Hn) Hid Hv.
  unfold guides_visibleb, active_validb, canvas_add in *. simpl.
  split; [|split].
  - rewrite forallb_app, Hg. simpl. now rewrite Hv.
  - destruct (activeObject c); [|reflexivity].
    rewrite existsb_app, Ha. reflexivity.
  - rewrite List.map_app. apply NoDup_app. split; [exact Hn|]. split.
    + intros x Hx Hx'. simpl in Hx'. apply list_elem_of_singleton in Hx'.
      subst x. rewrite Hid in Hx. now apply fresh_oid_not_in in Hx.
    + simpl. apply NoDup_singleton.
Qed.

Lemma canvas_ok_setActive o c :
  canvas_ok c -> existsb (is_oid (oid o)) (objects c) = true ->
  canvas_ok (setActiveObject o c).
Proof.
  rewrite !canvas_ok_iff. intros (Hg & Ha & Hn) Ho.
  unfold guides_visibleb, active_validb, setActiveObject in *. simpl.
  repeat split; assumption.
Qed.

Lemma canvas_ok_discard c : canvas_ok c -> canvas_ok (discardActiveObject c).
Proof.
  rewrite !canvas_ok_iff. intros (Hg & Ha & Hn).
  unfold guides_visibleb, active_validb, discardActiveObject in *. simpl.
  repeat split; assumption.
Qed.

Lemma front_permutation i (l : list FObject) :
  (List.filter (fun x => negb (is_oid i x)) l ++ List.filter (is_oid i) l)%list
  ≡ₚ l.
Proof.
  induction l as [|o l IH]; simpl; [reflexivity|].
  destruct (is_oid i o); simpl.
  - rewrite <- Permutation_middle. now rewrite IH.
  - now rewrite IH.
Qed.

Lemma forallb_perm {A} (p : A -> bool) (l l' : list A) :
  l ≡ₚ l' -> forallb p l = true -> forallb p l' = true.
Proof.
  intros Hp. rewrite !forallb_forall. intros H x Hx. apply H.
  apply list_elem_of_In. rewrite Hp. now apply list_elem_of_In.
Qed.

Lemma canvas_ok_bringToFront i c : canvas_ok c -> canvas_ok (bringToFront i c).
Proof.
  rewrite !canvas_ok_iff. intros (Hg & Ha & Hn).
  pose proof (front_permutation i (objects c)) as Hp.
  unfold guides_visibleb, active_validb, bringToFront in *. simpl.
  split; [|split].
  - eapply forallb_perm; [symmetry; exact Hp | exact Hg].
  - destruct (activeObject c) as [a|]; [|reflexivity].
    apply existsb_is_oid_In. apply existsb_is_oid_In in Ha.
    now rewrite (Permutation_map oid Hp).
  - now rewrite (Permutation_map oid Hp).
Qed.

Lemma map_oid_update i f (l : list FObject) :
  (forall o, oid (f o) = oid o) ->
  List.map oid (List.map (fun o => if is_oid i o then f o else o) l)
  = List.map oid l.
Proof.
  intros Hf. rewrite List.map_map. apply List.map_ext.
  intros o. destruct (is_oid i o); [apply Hf | reflexivity].
Qed.

Lemma canvas_ok_update i f c :
  (forall o, oid (f o) = oid o) ->
  (forall o, isGuide (f o) = isGuide o) ->
  (forall o, visible (f o) = visible o) ->
  canvas_ok c -> canvas_ok (update_object i f c).
Proof.
  intros Hid Hgd Hvis. rewrite !canvas_ok_iff. intros (Hg & Ha & Hn).
  unfold guides_visibleb, active_validb, update_object in *. simpl.
  split; [|split].
  - rewrite forallb_forall in *. intros o' Ho'.
    apply in_map_iff in Ho' as [o [<- Ho]]. specialize (Hg _ Ho).
    destruct (is_oid i o); [|exact Hg]. now rewrite Hgd, Hvis.
  - destruct (activeObject c) as [a|]; [|reflexivity].
    apply existsb_is_oid_In. apply existsb_is_oid_In in Ha.
    now rewrite map_oid_update.
  - now rewrite map_oid_update.
Qed.

Lemma NoDup_map_filter (p : FObject -> bool) (l : list FObject) :
  NoDup (List.map oid l) -> NoDup (List.map oid (List.filter p l)).
Proof.
  induction l as [|o l IH]; simpl; [trivial|].
  rewrite NoDup_cons. intros [Ho Hl]. destruct (p o); simpl; [|now apply IH].
  apply NoDup_cons. split; [|now apply IH].
  intros Hin. apply Ho. apply list_elem_of_In in Hin.
  apply in_map_iff in Hin as [x [Hx Hin]]. apply filter_In in Hin as [Hin _].
  apply list_elem_of_In. rewrite <- Hx. now apply List.in_map.
Qed.

Lemma canvas_ok_remove i c : canvas_ok c -> canvas_ok (canvas_remove i c).
Proof.
  rewrite !canvas_ok_iff. intros (Hg & Ha & Hn).
  unfold guides_visibleb, active_validb, canvas_remove in *. simpl.
  split; [|split].
  - rewrite forallb_forall in *. intros o Ho. apply filter_In in Ho as [Ho _].
    now apply Hg.
  - destruct (activeObject c) as [a|]; [|reflexivity].
    destruct (Nat.eqb_spec a i) as [->|Hne]; [reflexivity|].
    rewrite existsb_exists in *. destruct Ha as [o [Ho Hoa]].
    exists o. split; [|exact Hoa]. apply filter_In. split; [exact Ho|].
    unfold is_oid in *. apply Nat.eqb_eq in Hoa. rewrite Hoa.
    apply negb_true_iff. now apply Nat.eqb_neq.
  - now apply NoDup_map_filter.
Qed.

Lemma canvas_ok_init : canvas_ok initCanvas.
Proof. vm_compute. reflexivity. Qed.

Lemma canvas_ok_ghost img w h c : canvas_ok c -> canvas_ok (ghostLoaded img w h c).
Proof.
  rewrite !canvas_ok_iff. unfold guides_visibleb, active_validb. simpl.
  intros H. exact H.
Qed.

Lemma canvas_ok_clean c : canvas_ok c -> canvas_ok (snd (getCleanCanvasElement c)).
Proof. intros H. now rewrite clean_restores. Qed.

(** ** Synchronization on whole editor states *)

Lemma sync_keeps_canvases e :
  canvas_ok (shirtCanvas e) -> canvas_ok (pantsCanvas e) ->
  shirtCanvas (updateAllTextures e) = shirtCanvas e
  /\ pantsCanvas (updateAllTextures e) = pantsCanvas e.
Proof.
  intros Hs Hp. unfold updateAllTextures. cbn [shirtCanvas pantsCanvas].
  now rewrite !clean_restores.
Qed.

Lemma face_update_Some sh pa part f t :
  exists t', face_update sh pa part f (Some t) = Some t'.
Proof.
  unfold face_update. destruct (bool_decide _); [|eauto].
  destruct (textureSource part), (face_region part f); simpl; eauto.
Qed.

Lemma sync_keeps_allocated e :
  faces_allocated (faceCanvases e) ->
  faces_allocated (faceCanvases (updateAllTextures e)).
Proof.
  unfold faces_allocated. rewrite !forallb_forall.
  intros H [n part] Hin. specialize (H _ Hin).
  rewrite forallb_forall in *. intros f Hf. specialize (H _ Hf).
  unfold face_allocatedb in *. cbn [fst snd] in *.
  destruct (face_region part f) as [r|]; [|reflexivity].
  rewrite updateAllTextures_lookup.
  rewrite (assoc_In_NoDup _ _ _ BODY_PARTS_NoDup Hin).
  destruct (faceCanvases e !! (n, f)) as [t|]; [|discriminate].
  destruct (face_update_Some (shirtRaster e) (pantsRaster e) part f t) as [t' ->].
  reflexivity.
Qed.

Lemma editor_ok_sync e : editor_ok e -> editor_ok (updateAllTextures e).
Proof.
  intros (Hs & Hp & Ha). destruct (sync_keeps_canvases e Hs Hp) as [Es Ep].
  unfold editor_ok. rewrite Es, Ep. auto using sync_keeps_allocated.
Qed.

(** What one synchronization writes into a face with a declared region. *)
Lemma sync_mapped_face e name part face r b t :
  In (name, part) BODY_PARTS ->
  face_region part face = Some r ->
  source_raster e (textureSource part) = Some b ->
  faceCanvases e !! (name, face) = Some t ->
  faceCanvases (updateAllTextures e) !! (name, face) = Some (redraw b r t).
Proof.
  intros Hin Hreg Hsrc Ht.
  rewrite updateAllTextures_lookup.
  rewrite (assoc_In_NoDup _ _ _ BODY_PARTS_NoDup Hin).
  unfold face_update.
  rewrite bool_decide_eq_true_2 by (eapply declared_face_in_order; eauto).
  rewrite Hreg, Ht.
  destruct (textureSource part); simpl in *; congruence.
Qed.

(** A part without texture source is left alone. *)
Lemma sync_skips_untextured e name part face :
  In (name, part) BODY_PARTS -> textureSource part = src_none ->
  faceCanvases (updateAllTextures e) !! (name, face)
  = faceCanvases e !! (name, face).
Proof.
  intros Hin Hsrc. rewrite updateAllTextures_lookup.
  rewrite (assoc_In_NoDup _ _ _ BODY_PARTS_NoDup Hin).
  unfold face_update. rewrite Hsrc. now destruct (bool_decide _).
Qed.

(** ** The editing operations keep the invariants *)

Lemma getActive_setActive c e : getActiveCanvas (setActiveCanvas c e) = c.
Proof. unfold getActiveCanvas, setActiveCanvas. now destruct (currentMode e). Qed.

Lemma mode_setActive c e : currentMode (setActiveCanvas c e) = currentMode e.
Proof. unfold setActiveCanvas. now destruct (currentMode e). Qed.

Lemma faces_setActive c e : faceCanvases (setActiveCanvas c e) = faceCanvases e.
Proof. unfold setActiveCanvas. now destruct (currentMode e). Qed.

Lemma editor_ok_active e : editor_ok e -> canvas_ok (getActiveCanvas e).
Proof. intros (Hs & Hp & _). unfold getActiveCanvas. now destruct (currentMode e). Qed.

Lemma editor_ok_setActive c e :
  editor_ok e -> canvas_ok c -> editor_ok (setActiveCanvas c e).
Proof.
  intros (Hs & Hp & Ha) Hc. unfold editor_ok, setActiveCanvas.
  destruct (currentMode e); simpl; auto.
Qed.

Lemma mode_sync e : currentMode (updateAllTextures e) = currentMode e.
Proof. reflexivity. Qed.

Lemma getActive_sync e :
  editor_ok e -> getActiveCanvas (updateAllTextures e) = getActiveCanvas e.
Proof.
  intros (Hs & Hp & _). destruct (sync_keeps_canvases e Hs Hp) as [Es Ep].
  unfold getActiveCanvas. change (currentMode (updateAllTextures e)) with (currentMode e).
  destruct (currentMode e); assumption.
Qed.

(** The other canvas is not touched by writing the active one back. *)
Lemma other_canvas_setActive c e :
  match currentMode e with
  | shirt => pantsCanvas (setActiveCanvas c e) = pantsCanvas e
  | pants => shirtCanvas (setActiveCanvas c e) = shirtCanvas e
  end.
Proof. unfold setActiveCanvas. now destruct (currentMode e). Qed.

Lemma existsb_added o c : existsb (is_oid (oid o)) (objects (canvas_add o c)) = true.
Proof.
  unfold canvas_add. simpl. rewrite existsb_app. simpl.
  unfold is_oid at 2. rewrite Nat.eqb_refl. now rewrite orb_true_r.
Qed.

Lemma upload_active_canvas element w h e :
  editor_ok e ->
  getActiveCanvas (uploadImage element w h e)
  = bringToFront (fresh_oid (getActiveCanvas e))
      (setActiveObject (uploaded element w h (getActiveCanvas e))
         (canvas_add (uploaded element w h (getActiveCanvas e)) (getActiveCanvas e)))
  /\ editor_ok (uploadImage element w h e).
Proof.
  intros Hok. unfold uploadImage.
  fold (uploaded element w h (getActiveCanvas e)).
  set (img := uploaded element w h (getActiveCanvas e)).
  assert (Hadd : canvas_ok (canvas_add img (getActiveCanvas e))).
  { apply canvas_ok_add; [now apply editor_ok_active | reflexivity | reflexivity]. }
  assert (H1 : editor_ok (setActiveCanvas (canvas_add img (getActiveCanvas e)) e))
    by now apply editor_ok_setActive.
  pose proof (editor_ok_sync _ H1) as H2.
  rewrite (getActive_sync _ H1), getActive_setActive.
  assert (Hc : canvas_ok (bringToFront (oid img)
                 (setActiveObject img (canvas_add img (getActiveCanvas e))))).
  { apply canvas_ok_bringToFront, canvas_ok_setActive; [exact Hadd|].
    apply existsb_added. }
  assert (H3 := editor_ok_setActive _ _ H2 Hc).
  split.
  - rewrite (getActive_sync _ H3), getActive_setActive. reflexivity.
  - now apply editor_ok_sync.
Qed.

(** ** Fit to zone *)

Lemma filter_is_oid_unique i (l : list FObject) L :
  NoDup (List.map oid l) -> List.find (is_oid i) l = Some L ->
  List.filter (is_oid i) l = [L].
Proof.
  induction l as [|o l IH]; simpl; [discriminate|].
  rewrite NoDup_cons. intros [Ho Hl].
  destruct (is_oid i o) eqn:E.
  - intros [= ->]. f_equal.
    assert (Hnone : forall x, In x l -> is_oid i x = false).
    { intros x Hx. destruct (is_oid i x) eqn:Ex; [|reflexivity].
      exfalso. apply Ho. unfold is_oid in *.
      apply Nat.eqb_eq in E, Ex. rewrite E, <- Ex.
      apply list_elem_of_In. now apply List.in_map. }
    clear -Hnone. induction l as [|x l IH]; simpl; [reflexivity|].
    rewrite (Hnone x) by now left. apply IH. intros y Hy. apply Hnone. now right.
  - intros Hf. now apply IH.
Qed.

Lemma filter_is_oid_update i f (l : list FObject) :
  (forall o, oid (f o) = oid o) ->
  List.filter (is_oid i) (List.map (fun o => if is_oid i o then f o else o) l)
  = List.map f (List.filter (is_oid i) l).
Proof.
  intros Hf. induction l as [|o l IH]; simpl; [reflexivity|].
  destruct (is_oid i o) eqn:E; simpl.
  - unfold is_oid at 1. rewrite Hf. fold (is_oid i o). rewrite E. simpl.
    now rewrite IH.
  - rewrite E. exact IH.
Qed.

Lemma filter_others_update i f (l : list FObject) :
  (forall o, oid (f o) = oid o) ->
  List.filter (fun x => negb (is_oid i x))
    (List.map (fun o => if is_oid i o then f o else o) l)
  = List.filter (fun x => negb (is_oid i x)) l.
Proof.
  intros Hf. induction l as [|o l IH]; simpl; [reflexivity|].
  destruct (is_oid i o) eqn:E; simpl.
  - unfold is_oid at 1. rewrite Hf. fold (is_oid i o). rewrite E. simpl.
    exact IH.
  - rewrite E. simpl. now rewrite IH.
Qed.

Lemma find_others_none i (l : list FObject) :
  List.find (is_oid i) (List.filter (fun x => negb (is_oid i x)) l) = None.
Proof.
  induction l as [|o l IH]; simpl; [reflexivity|].
  destruct (is_oid i o) eqn:E; simpl; [exact IH|]. now rewrite E.
Qed.

Lemma find_app_none {A} (p : A -> bool) (l k : list A) :
  List.find p l = None -> List.find p (l ++ k)%list = List.find p k.
Proof.
  induction l as [|x l IH]; simpl; [reflexivity|].
  destruct (p x); [discriminate|]. exact IH.
Qed.

Lemma getActiveObject_oid c L :
  getActiveObject c = Some L -> activeObject c = Some (oid L).
Proof.
  unfold getActiveObject. destruct (activeObject c) as [i|]; [|discriminate].
  intros H. now rewrite (find_is_oid _ _ _ H).
Qed.

Lemma getActiveObject_find c L :
  getActiveObject c = Some L -> List.find (is_oid (oid L)) (objects c) = Some L.
Proof.
  intros H. pose proof (getActiveObject_oid _ _ H) as Ha.
  unfold getActiveObject in H. now rewrite Ha in H.
Qed.

(** The stack after an in-place update of the active object followed by
    [bringToFront]: the other objects in their order, then the object. *)
Lemma front_updated_objects c L f :
  canvas_ok c -> getActiveObject c = Some L ->
  (forall o, oid (f o) = oid o) ->
  objects (bringToFront (oid L) (update_object (oid L) f c))
  = (List.filter (fun x => negb (is_oid (oid L) x)) (objects c) ++ [f L])%list.
Proof.
  intros Hok HL Hf. apply canvas_ok_iff in Hok as (_ & _ & Hn).
  unfold bringToFront, update_object. simpl.
  rewrite filter_others_update, filter_is_oid_update by exact Hf.
  rewrite (filter_is_oid_unique _ _ L Hn (getActiveObject_find _ _ HL)).
  reflexivity.
Qed.

Lemma front_updated_active c L f :
  canvas_ok c -> getActiveObject c = Some L ->
  (forall o, oid (f o) = oid o) ->
  getActiveObject (bringToFront (oid L) (update_object (oid L) f c)) = Some (f L).
Proof.
  intros Hok HL Hf. unfold getActiveObject.
  rewrite (front_updated_objects c L f Hok HL Hf).
  change (activeObject (bringToFront (oid L) (update_object (oid L) f c)))
    with (activeObject c).
  rewrite (getActiveObject_oid _ _ HL).
  rewrite find_app_none by apply find_others_none.
  simpl. unfold is_oid. rewrite Hf, Nat.eqb_refl. reflexivity.
Qed.

Lemma fitted_oid zone L o : oid (set_placement (num (rx zone)) (num (ry zone))
    (num (rw zone) / FabricObject.width L)%float
    (num (rh zone) / FabricObject.height L)%float o) = oid o.
Proof. reflexivity. Qed.

(** [fitToZone] on a state with a selection, for a zone of the table. *)
Lemma fitToZone_selected zoneName zone e L :
  editor_ok e ->
  getActiveObject (getActiveCanvas e) = Some L ->
  assoc zoneName FIT_ZONES = Some zone ->
  exists e',
    fitToZone zoneName e = (None, e')
    /\ editor_ok e'
    /\ currentMode e' = currentMode e
    /\ objects (getActiveCanvas e')
       = (List.filter (fun x => negb (is_oid (oid L) x))
            (objects (getActiveCanvas e)) ++ [fitted zone L])%list
    /\ getActiveObject (getActiveCanvas e') = Some (fitted zone L).
Proof.
  intros Hok HL Hz. unfold fitToZone. rewrite HL, Hz.
  eexists. split; [reflexivity|].
  set (f := set_placement (num (rx zone)) (num (ry zone))
              (num (rw zone) / FabricObject.width L)%float
              (num (rh zone) / FabricObject.height L)%float).
  set (c2 := bringToFront (oid L) (update_object (oid L) f (getActiveCanvas e))).
  pose proof (editor_ok_active _ Hok) as Hc.
  assert (Hc2 : canvas_ok c2).
  { apply canvas_ok_bringToFront, canvas_ok_update; auto. }
  pose proof (editor_ok_setActive _ _ Hok Hc2) as H1.
  split; [now apply editor_ok_sync|]. split.
  - change (currentMode (updateAllTextures (setActiveCanvas c2 e)))
      with (currentMode (setActiveCanvas c2 e)). apply mode_setActive.
  - rewrite (getActive_sync _ H1), getActive_setActive. split.
    + apply (front_updated_objects _ L f Hc HL). reflexivity.
    + apply (front_updated_active _ L f Hc HL). reflexivity.
Qed.

(** ** Upload *)

Lemma is_oid_fresh c o : In o (objects c) -> is_oid (fresh_oid c) o = false.
Proof.
  intros Hin. unfold is_oid. apply Nat.eqb_neq. intros Heq.
  apply (fresh_oid_not_in c). rewrite <- Heq.
  apply list_elem_of_In. now apply List.in_map.
Qed.

Lemma filter_none {A} (p : A -> bool) (l : list A) :
  (forall x, In x l -> p x = false) -> List.filter p l = [].
Proof.
  induction l as [|x l IH]; simpl; [reflexivity|]. intros H.
  rewrite (H x) by now left. apply IH. intros y Hy. apply H. now right.
Qed.

Lemma filter_all {A} (p : A -> bool) (l : list A) :
  (forall x, In x l -> p x = true) -> List.filter p l = l.
Proof.
  induction l as [|x l IH]; simpl; [reflexivity|]. intros H.
  rewrite (H x) by now left. f_equal. apply IH. intros y Hy. apply H. now right.
Qed.

Lemma find_none {A} (p : A -> bool) (l : list A) :
  (forall x, In x l -> p x = false) -> List.find p l = None.
Proof.
  induction l as [|x l IH]; simpl; [reflexivity|]. intros H.
  rewrite (H x) by now left. apply IH. intros y Hy. apply H. now right.
Qed.

(** After an upload the new image is on top of the stack of the active
    canvas, above everything that was there, and it is the selection. *)
Lemma upload_result element w h e :
  editor_ok e ->
  let img := uploaded element w h (getActiveCanvas e) in
  let e1 := uploadImage element w h e in
  editor_ok e1
  /\ currentMode e1 = currentMode e
  /\ objects (getActiveCanvas e1) = (objects (getActiveCanvas e) ++ [img])%list
  /\ getActiveObject (getActiveCanvas e1) = Some img.
Proof.
  intros Hok img e1.
  destruct (upload_active_canvas element w h e Hok) as [Hc Hok1].
  fold img in Hc. fold e1 in Hc, Hok1.
  assert (Hobjs : objects (getActiveCanvas e1)
                  = (objects (getActiveCanvas e) ++ [img])%list).
  { rewrite Hc. unfold bringToFront, setActiveObject, canvas_add. simpl.
    rewrite !List.filter_app. simpl.
    change (is_oid (fresh_oid (getActiveCanvas e)) img) with
      (Nat.eqb (fresh_oid (getActiveCanvas e)) (fresh_oid (getActiveCanvas e))).
    rewrite Nat.eqb_refl. simpl.
    rewrite (filter_none (is_oid _)) by apply is_oid_fresh.
    rewrite filter_all.
    - now rewrite List.app_nil_r.
    - intros x Hx. now rewrite is_oid_fresh. }
  split; [exact Hok1|]. split.
  { subst e1. unfold uploadImage.
    now rewrite mode_sync, mode_setActive, mode_sync, mode_setActive. }
  split; [exact Hobjs|].
  unfold getActiveObject. rewrite Hobjs. rewrite Hc. simpl.
  rewrite find_app_none by (apply find_none, is_oid_fresh).
  simpl. unfold is_oid. simpl. now rewrite Nat.eqb_refl.
Qed.

(** ** Synchronization: the claims *)

(** C1: after a synchronization every face with a declared region of a
    part that reads the shirt or the pants sheet holds the face region of
    that sheet's guide-hidden raster, drawn over an opaque white fill (and
    its texture is marked for upload); the faces of a part without texture
    source are not touched and the materials of the rig stay as they were;
    and after an upload to the shirt canvas and [fitToZone('front')], the
    front face of the torso holds the region (128,128,128,128) of the
    shirt canvas's guide-hidden raster. *)
Theorem sync_copies_face_regions (e : Editor) :
  faces_allocated (faceCanvases e) ->
  (forall name part face r b,
      In (name, part) BODY_PARTS ->
      face_region part face = Some r ->
      source_raster e (textureSource part) = Some b ->
      exists t,
        faceCanvases e !! (name, face) = Some t
        /\ faceCanvases (updateAllTextures e) !! (name, face)
           = Some (mkFaceTex
                     (drawImage b r (fillRect (cssColor "#ffffff") (pixels t)))
                     (S (version t))))
  /\ (forall name part face,
        In (name, part) BODY_PARTS -> textureSource part = src_none ->
        faceCanvases (updateAllTextures e) !! (name, face)
        = faceCanvases e !! (name, face))
  /\ bodyMeshes (updateAllTextures e) = bodyMeshes e
  /\ (forall element w h,
        editor_ok e -> currentMode e = shirt ->
        exists e2 t,
          fitToZone "front" (uploadImage element w h e) = (None, e2)
          /\ faceCanvases (updateAllTextures e2) !! ("torso", "front") = Some t
          /\ pixels t
             = drawImage (fst (getCleanCanvasElement (shirtCanvas e2)))
                 (mkRegion 128 128 128 128) (solid (cssColor "#ffffff"))).
Proof.
  intros Halloc. split; [|split; [|split]].
  - intros name part face r b Hin Hreg Hsrc.
    destruct (allocated_lookup _ _ _ _ _ Halloc Hin Hreg) as [t Ht].
    exists t. split; [exact Ht|].
    now apply (sync_mapped_face e name part face r b t).
  - intros name part face Hin Hsrc. now apply (sync_skips_untextured e name part).
  - reflexivity.
  - intros element w h Hok Hmode.
    destruct (upload_result element w h e Hok) as (Hok1 & Hm1 & _ & Hact).
    destruct (fitToZone_selected "front" (mkRegion 128 128 128 128) _ _
                Hok1 Hact eq_refl) as (e2 & Hfit & Hok2 & _).
    destruct Hok2 as (_ & _ & Ha2).
    assert (Hin : In ("torso", mkBodyPart (2, 2, 1)%float (0, 0, 0)%float src_shirt
      [ ("front",  Some (mkRegion 128 128 128 128));
        ("back",   Some (mkRegion 327 128 128 128));
        ("right",  Some (mkRegion 64  128 64  128));
        ("left",   Some (mkRegion 256 128 64  128));
        ("top",    Some (mkRegion 128 0   128 64));
        ("bottom", Some (mkRegion 128 256 128 64)) ]) BODY_PARTS) by (left; reflexivity).
    destruct (allocated_lookup _ _ _ "front" (mkRegion 128 128 128 128) Ha2 Hin eq_refl)
      as [t Ht].
    exists e2, (redraw (shirtRaster e2) (mkRegion 128 128 128 128) t).
    split; [exact Hfit|]. split; [|reflexivity].
    now apply (sync_mapped_face e2 "torso" _ "front" _ _ t Hin).
Qed.

Lemma sync_pixels_again (e : Editor) (k : string * string) :
  pixels <$> faceCanvases (updateAllTextures (updateAllTextures e)) !! k
  = pixels <$> faceCanvases (updateAllTextures e) !! k.
Proof.
  destruct k as [p f].
  rewrite (updateAllTextures_lookup (updateAllTextures e)).
  destruct (assoc p BODY_PARTS) as [part|] eqn:Hp; [|reflexivity].
  assert (Hs : shirtRaster (updateAllTextures e) = shirtRaster e)
    by apply clean_raster_again.
  assert (Hq : pantsRaster (updateAllTextures e) = pantsRaster e)
    by apply clean_raster_again.
  rewrite Hs, Hq.
  rewrite (updateAllTextures_lookup e), Hp.
  unfold face_update. destruct (bool_decide _); [|reflexivity].
  destruct (textureSource part), (face_region part f);
    try reflexivity;
    destruct (faceCanvases e !! (p, f)); reflexivity.
Qed.

(** C7: a second synchronization in a row leaves the pixels of every
    face texture as the first one made them. *)
Theorem sync_idempotent (e : Editor) (k : string * string) :
  pixels <$> faceCanvases (updateAllTextures (updateAllTextures e)) !! k
  = pixels <$> faceCanvases (updateAllTextures e) !! k.
Proof. apply sync_pixels_again. Qed.

(** The rig as the page builds it: every face with a region starts with
    the fill of its texture source. *)
Lemma initial_textures name part face r :
  In (name, part) BODY_PARTS -> face_region part face = Some r ->
  fst createBodyParts !! (name, face)
  = Some (mkFaceTex (solid (initial_fill (textureSource part))) 1).
Proof.
  intros Hin Hreg.
  pose proof (declared_face_in_order _ _ _ _ Hin Hreg) as Hf.
  apply list_elem_of_In in Hf. simpl in Hin, Hf.
  repeat (destruct Hin as [Hin|Hin];
          [injection Hin as <- <-;
           repeat (destruct Hf as [<-|Hf]; [first [discriminate Hreg | vm_compute; reflexivity]|]);
           contradiction|]).
  contradiction.
Qed.

Lemma init_allocated : faces_allocated (fst createBodyParts).
Proof. vm_compute. reflexivity. Qed.

Lemma head_materials :
  assoc "head" (snd createBodyParts)
  = Some [skinMaterial; skinMaterial; skinMaterial;
          skinMaterial; skinMaterial; skinMaterial].
Proof. reflexivity. Qed.

Lemma editor_ok_init : editor_ok initEditor.
Proof.
  split; [apply canvas_ok_init|]. split; [apply canvas_ok_init|].
  apply init_allocated.
Qed.

(** C3, as the code has it: with no layer on either canvas a
    synchronization draws into every mapped face, of shirt- and
    pants-sourced parts alike, the face region of the bare background of
    its source canvas over an opaque white fill, which is plain white when
    no ghost template is loaded and the resampling of a white sheet is
    white; the fill colours (white for shirt-sourced parts, denim blue for
    pants-sourced ones) are what the faces hold before the first
    synchronization; the faces of the head have the skin material, which
    no synchronization changes. *)
Theorem sync_without_layers (e : Editor) :
  faces_allocated (faceCanvases e) ->
  layers (shirtCanvas e) = [] -> layers (pantsCanvas e) = [] ->
  (forall name part face r c,
      In (name, part) BODY_PARTS -> face_region part face = Some r ->
      source_canvas e (textureSource part) = Some c ->
      exists t,
        faceCanvases (updateAllTextures e) !! (name, face) = Some t
        /\ pixels t = drawImage (renderBackground c) r (solid (cssColor "#ffffff"))
        /\ (backgroundColor c = "#ffffff" -> backgroundImage c = None ->
            (forall i j, drawImage (solid (cssColor "#ffffff")) r
                           (solid (cssColor "#ffffff")) i j = cssColor "#ffffff") ->
            forall i j, pixels t i j = cssColor "#ffffff"))
  /\ (forall name part face r,
        In (name, part) BODY_PARTS -> face_region part face = Some r ->
        faceCanvases initEditor !! (name, face)
        = Some (mkFaceTex (solid (initial_fill (textureSource part))) 1))
  /\ initial_fill src_shirt = mkRGBA 255 255 255 255
  /\ initial_fill src_pants = mkRGBA 61 90 128 255
  /\ assoc "head" (bodyMeshes initEditor)
     = Some [skinMaterial; skinMaterial; skinMaterial;
             skinMaterial; skinMaterial; skinMaterial]
  /\ bodyMeshes (updateAllTextures e) = bodyMeshes e.
Proof.
  intros Halloc Hs Hp. split; [|split; [|repeat split]].
  - intros name part face r c Hin Hreg Hc.
    destruct (allocated_lookup _ _ _ _ _ Halloc Hin Hreg) as [t Ht].
    assert (Hsrc : source_raster e (textureSource part) = Some (renderBackground c)).
    { unfold source_raster, source_canvas, shirtRaster, pantsRaster in *.
      destruct (textureSource part); try discriminate;
        injection Hc as <-; rewrite clean_raster, ?Hs, ?Hp; reflexivity. }
    exists (redraw (renderBackground c) r t).
    split; [now apply (sync_mapped_face e name part face r _ t)|].
    split; [reflexivity|].
    intros Hcol Hbg Hdraw i j. simpl. unfold renderBackground, fillRect.
    rewrite Hbg, Hcol. apply Hdraw.
  - intros name part face r Hin Hreg.
    change (faceCanvases initEditor) with (fst createBodyParts).
    now apply (initial_textures name part face r).
Qed.

(** ** Fit to zone: the claim *)

Lemma fit_zone_cases zoneName zone :
  assoc zoneName FIT_ZONES = Some zone ->
  (rw zone = 128 \/ rw zone = 64)%Z /\ rh zone = 128%Z.
Proof.
  unfold FIT_ZONES. simpl.
  repeat (destruct (String.eqb zoneName _);
          [intros [= <-]; simpl; auto|]).
  discriminate.
Qed.

Lemma zseq_In x start len :
  In x (zseq start len) <-> (start <= x < start + Z.of_nat len)%Z.
Proof.
  revert start. induction len as [|k IH]; intros start; simpl zseq.
  - simpl. lia.
  - simpl In. rewrite IH. lia.
Qed.

Lemma fit_within_checked :
  forallb (fun w => fit_withinb w 128 && fit_withinb w 64)
    (zseq 1 (Z.to_nat MAX_SIZE)) = true.
Proof. vm_compute. reflexivity. Qed.

(** For every natural size up to [MAX_SIZE] the fitted extent is the
    zone's extent or falls short of it by one unit in the last place. *)
Lemma fit_within size extent :
  (1 <= size <= MAX_SIZE)%Z -> (extent = 128 \/ extent = 64)%Z ->
  fit_withinb size extent = true.
Proof.
  intros Hs He. pose proof fit_within_checked as H.
  rewrite forallb_forall in H. specialize (H size).
  rewrite andb_true_iff in H. destruct H as [H1 H2].
  - apply zseq_In. unfold MAX_SIZE in *. lia.
  - now destruct He as [-> | ->].
Qed.

Lemma fit_exact_sizes size extent :
  exact_size size -> (extent = 128 \/ extent = 64)%Z ->
  fit_exactb size extent = true.
Proof.
  intros Hs He.
  assert (Hin : In size (zseq 1 48 ++ List.map (Z.pow 2) (zseq 0 17)
                           ++ [559; 585; 600; 1024])%Z%list).
  { apply in_or_app. destruct Hs as [Hs | [(k & Hk & ->) | Hs]].
    - left. apply zseq_In. lia.
    - right. apply in_or_app. left. apply List.in_map. apply zseq_In. lia.
    - right. apply in_or_app. now right. }
  assert (Hall : forallb (fun w => fit_exactb w 128 && fit_exactb w 64)
                   (zseq 1 48 ++ List.map (Z.pow 2) (zseq 0 17)
                      ++ [559; 585; 600; 1024])%Z%list = true)
    by (vm_compute; reflexivity).
  rewrite forallb_forall in Hall. specialize (Hall _ Hin).
  rewrite andb_true_iff in Hall. destruct Hall as [H1 H2].
  now destruct He as [-> | ->].
Qed.

Lemma fitted_width zone L w :
  FabricObject.width L = num w ->
  (FabricObject.width (fitted zone L) * FabricObject.scaleX (fitted zone L))%float
  = fitted_extent w (rw zone).
Proof. unfold fitted, fitted_extent. simpl. now intros ->. Qed.

Lemma fitted_height zone L h :
  FabricObject.height L = num h ->
  (FabricObject.height (fitted zone L) * FabricObject.scaleY (fitted zone L))%float
  = fitted_extent h (rh zone).
Proof. unfold fitted, fitted_extent. simpl. now intros ->. Qed.

(** [fitToZone] writes the active canvas only. *)
Lemma fitToZone_other_canvas zoneName zone e L e' :
  editor_ok e ->
  getActiveObject (getActiveCanvas e) = Some L ->
  assoc zoneName FIT_ZONES = Some zone ->
  fitToZone zoneName e = (None, e') ->
  match currentMode e with
  | shirt => pantsCanvas e' = pantsCanvas e
  | pants => shirtCanvas e' = shirtCanvas e
  end.
Proof.
  intros Hok HL Hz. unfold fitToZone. rewrite HL, Hz. intros [= <-].
  set (c2 := bringToFront (oid L) _).
  assert (Hc2 : canvas_ok c2).
  { apply canvas_ok_bringToFront, canvas_ok_update; auto.
    now apply editor_ok_active. }
  pose proof (editor_ok_setActive _ _ Hok Hc2) as (Hs & Hp & _).
  destruct (sync_keeps_canvases _ Hs Hp) as [Es Ep].
  pose proof (other_canvas_setActive c2 e) as Ho.
  destruct (currentMode e); congruence.
Qed.

(** C2, as the code has it: for every zone of the table and a selected
    object [L], [fitToZone] puts [L] at the zone's corner, sets its scale
    factors to the double-precision quotients zone extent / natural size
    and changes nothing else of it, moves it to the top of the stack above
    all other objects in their previous order, keeps it selected and leaves
    the other canvas alone; for every natural size up to 65536 pixels the
    products natural size * scale are the zone's extents or the doubles
    just below them, and they are the zone's extents for the natural sizes
    up to 48, the powers of two and 559, 585, 600 and 1024; with nothing
    selected the alert is shown and the state is the same. *)
Theorem fitToZone_places_layer (e : Editor) (zoneName : string) (zone : Region) :
  assoc zoneName FIT_ZONES = Some zone ->
  (forall L,
      editor_ok e -> getActiveObject (getActiveCanvas e) = Some L ->
      exists e' L',
        fitToZone zoneName e = (None, e')
        /\ L' = fitted zone L
        /\ getActiveObject (getActiveCanvas e') = Some L'
        /\ objects (getActiveCanvas e')
           = (List.filter (fun x => negb (is_oid (oid L) x))
                (objects (getActiveCanvas e)) ++ [L'])%list
        /\ last (objects (getActiveCanvas e')) = Some L'
        /\ currentMode e' = currentMode e
        /\ match currentMode e with
           | shirt => pantsCanvas e' = pantsCanvas e
           | pants => shirtCanvas e' = shirtCanvas e
           end
        /\ oid L' = oid L
        /\ FabricObject.left L' = num (rx zone)
        /\ FabricObject.top L' = num (ry zone)
        /\ FabricObject.scaleX L' = (num (rw zone) / FabricObject.width L)%float
        /\ FabricObject.scaleY L' = (num (rh zone) / FabricObject.height L)%float
        /\ FabricObject.width L' = FabricObject.width L
        /\ FabricObject.height L' = FabricObject.height L
        /\ (forall w, (1 <= w <= MAX_SIZE)%Z -> FabricObject.width L = num w ->
              let p := (FabricObject.width L' * FabricObject.scaleX L')%float in
              (js_eq p (num (rw zone)) \/ js_eq p (next_down (num (rw zone))))
              /\ (exact_size w -> js_eq p (num (rw zone))))
        /\ (forall h, (1 <= h <= MAX_SIZE)%Z -> FabricObject.height L = num h ->
              let p := (FabricObject.height L' * FabricObject.scaleY L')%float in
              (js_eq p (num (rh zone)) \/ js_eq p (next_down (num (rh zone))))
              /\ (exact_size h -> js_eq p (num (rh zone)))))
  /\ (getActiveObject (getActiveCanvas e) = None ->
      fitToZone zoneName e = (Some "Select an image first!", e)).
Proof.
  intros Hz. destruct (fit_zone_cases _ _ Hz) as [Hrw Hrh]. split.
  - intros L Hok HL.
    destruct (fitToZone_selected zoneName zone e L Hok HL Hz)
      as (e' & Hfit & _ & Hmode & Hobjs & Hact).
    exists e', (fitted zone L). split; [exact Hfit|]. split; [reflexivity|].
    split; [exact Hact|]. split; [exact Hobjs|].
    split; [rewrite Hobjs; apply last_snoc|]. split; [exact Hmode|].
    split; [exact (fitToZone_other_canvas _ _ _ _ _ Hok HL Hz Hfit)|].
    do 7 (split; [reflexivity|]).
    split.
    + intros w Hw HLw p. subst p. rewrite (fitted_width zone L w HLw).
      unfold js_eq. split.
      * pose proof (fit_within w (rw zone) Hw Hrw) as H.
        unfold fit_withinb, fit_exactb in H. now apply orb_true_iff in H.
      * intros Hex. exact (fit_exact_sizes w (rw zone) Hex Hrw).
    + intros h Hh HLh p. subst p. rewrite (fitted_height zone L h HLh).
      assert (Hrh' : (rh zone = 128 \/ rh zone = 64)%Z) by now left.
      unfold js_eq. split.
      * pose proof (fit_within h (rh zone) Hh Hrh') as H.
        unfold fit_withinb, fit_exactb in H. now apply orb_true_iff in H.
      * intros Hex. exact (fit_exact_sizes h (rh zone) Hex Hrh').
  - intros Hnone. unfold fitToZone. now rewrite Hnone.
Qed.

(** ** Switching the edited channel *)

(** C5: switching to the current channel changes nothing; every switch
    leaves both canvases (stack, transforms, selection) and every face
    texture with its version as they were, so no synchronization has run;
    switching away and back gives the same canvases again; after a switch
    exactly one of the two canvases is hidden. *)
Theorem switchMode_keeps_layers (e : Editor) (next : Mode) :
  (next = currentMode e -> switchMode next e = e)
  /\ currentMode (switchMode next e) = next
  /\ shirtCanvas (switchMode next e) = shirtCanvas e
  /\ pantsCanvas (switchMode next e) = pantsCanvas e
  /\ faceCanvases (switchMode next e) = faceCanvases e
  /\ bodyMeshes (switchMode next e) = bodyMeshes e
  /\ (forall away,
        shirtCanvas (switchMode (currentMode e) (switchMode away e)) = shirtCanvas e
        /\ pantsCanvas (switchMode (currentMode e) (switchMode away e)) = pantsCanvas e
        /\ currentMode (switchMode (currentMode e) (switchMode away e)) = currentMode e)
  /\ (next <> currentMode e ->
      shirtHidden (ui (switchMode next e)) = negb (pantsHidden (ui (switchMode next e)))
      /\ pantsHidden (ui (switchMode next e))
         = match next with shirt => true | pants => false end
      /\ torsoOnlyHidden (ui (switchMode next e))
         = match next with shirt => false | pants => true end).
Proof.
  destruct e as [m sc pc fc bm u]. unfold switchMode. cbn [currentMode].
  split. { intros ->. now destruct m. }
  do 5 (split; [destruct next, m; reflexivity|]).
  split.
  - intros away. destruct away, m; repeat split; reflexivity.
  - intros Hne. destruct next, m;
      try (now contradiction Hne); repeat split; reflexivity.
Qed.

(** ** Deleting the selection *)

Lemma layers_after_remove i (l : list FObject) L :
  NoDup (List.map oid l) -> List.find (is_oid i) l = Some L ->
  isGuide L = false ->
  length (List.filter (fun o => negb (isGuide o)) l)
  = S (length (List.filter (fun o => negb (isGuide o))
                 (List.filter (fun x => negb (is_oid i x)) l))).
Proof.
  induction l as [|o l IH]; simpl; [discriminate|].
  rewrite NoDup_cons. intros [Ho Hl].
  destruct (is_oid i o) eqn:E; simpl.
  - intros [= ->] Hg. rewrite Hg. simpl. do 2 f_equal.
    symmetry. f_equal. apply filter_all. intros x Hx.
    apply negb_true_iff. destruct (is_oid i x) eqn:Ex; [|reflexivity].
    exfalso. apply Ho. unfold is_oid in *.
    apply Nat.eqb_eq in E, Ex. rewrite E, <- Ex.
    apply list_elem_of_In. now apply List.in_map.
  - intros Hf Hg. destruct (isGuide o); simpl; [now apply IH|].
    f_equal. now apply IH.
Qed.

Lemma delete_selected_layer e L :
  editor_ok e -> getActiveObject (getActiveCanvas e) = Some L ->
  isGuide L = false ->
  exists e',
    deleteSelected e = (None, e')
    /\ editor_ok e'
    /\ currentMode e' = currentMode e
    /\ getActiveCanvas e'
       = discardActiveObject (canvas_remove (oid L) (getActiveCanvas e))
    /\ textures_synced e'.
Proof.
  intros Hok HL Hg. unfold deleteSelected. rewrite HL, Hg.
  eexists. split; [reflexivity|].
  set (c1 := canvas_remove (oid L) (getActiveCanvas e)).
  assert (Hc1 : canvas_ok c1) by (apply canvas_ok_remove; now apply editor_ok_active).
  pose proof (editor_ok_setActive _ _ Hok Hc1) as H1.
  pose proof (editor_ok_sync _ H1) as H2.
  rewrite (getActive_sync _ H1), getActive_setActive.
  pose proof (canvas_ok_discard _ Hc1) as Hc2.
  pose proof (editor_ok_setActive _ _ H2 Hc2) as H3.
  split; [now apply editor_ok_sync|]. split.
  - now rewrite mode_sync, mode_setActive, mode_sync, mode_setActive.
  - split.
    + now rewrite (getActive_sync _ H3), getActive_setActive.
    + intros k. apply sync_pixels_again.
Qed.

(** C6: with nothing selected, and with a guide selected, the alert is
    shown and the state is the one before; otherwise the selected layer,
    and nothing else, leaves the stack of the active canvas, nothing is
    selected any more and the face textures are synchronized; a canvas
    whose only layer is deleted has no layer left. *)
Theorem deleteSelected_cases (e : Editor) :
  (getActiveObject (getActiveCanvas e) = None ->
   deleteSelected e = (Some "Select an image to delete!", e))
  /\ (forall g,
        getActiveObject (getActiveCanvas e) = Some g -> isGuide g = true ->
        deleteSelected e = (Some "Cannot delete guide elements!", e))
  /\ (forall L,
        editor_ok e -> getActiveObject (getActiveCanvas e) = Some L ->
        isGuide L = false ->
        exists e',
          deleteSelected e = (None, e')
          /\ currentMode e' = currentMode e
          /\ objects (getActiveCanvas e')
             = List.filter (fun x => negb (is_oid (oid L) x))
                 (objects (getActiveCanvas e))
          /\ (objects (getActiveCanvas e') ++ [L])%list ≡ₚ objects (getActiveCanvas e)
          /\ S (length (layers (getActiveCanvas e')))
             = length (layers (getActiveCanvas e))
          /\ (length (layers (getActiveCanvas e)) = 1 ->
              layers (getActiveCanvas e') = [])
          /\ getActiveObject (getActiveCanvas e') = None
          /\ textures_synced e').
Proof.
  split; [|split].
  - intros Hnone. unfold deleteSelected. now rewrite Hnone.
  - intros g Hg Hguide. unfold deleteSelected. now rewrite Hg, Hguide.
  - intros L Hok HL Hg.
    destruct (delete_selected_layer e L Hok HL Hg)
      as (e' & Hdel & _ & Hmode & Hc & Hsync).
    exists e'. split; [exact Hdel|]. split; [exact Hmode|].
    pose proof (editor_ok_active _ Hok) as Hcok.
    apply canvas_ok_iff in Hcok as (_ & _ & Hn).
    pose proof (getActiveObject_find _ _ HL) as Hfind.
    assert (Hlen : S (length (layers (getActiveCanvas e')))
                   = length (layers (getActiveCanvas e))).
    { rewrite Hc. unfold layers. simpl. symmetry.
      now apply (layers_after_remove (oid L) _ L). }
    rewrite Hc. simpl. split; [reflexivity|]. split.
    { rewrite <- (front_permutation (oid L) (objects (getActiveCanvas e))) at 2.
      now rewrite (filter_is_oid_unique _ _ L Hn Hfind). }
    split; [now rewrite Hc in Hlen|]. split.
    { intros H1. rewrite Hc in Hlen. rewrite H1 in Hlen.
      destruct (layers _); [reflexivity|discriminate]. }
    split; [reflexivity|exact Hsync].
Qed.

(** ** Export *)

Lemma substring_skip n m a s :
  substring (S n) m (String a s) = substring n m s.
Proof. reflexivity. Qed.

Lemma substring_all s : substring 0 (String.length s) s = s.
Proof. induction s as [|a s IH]; simpl; [reflexivity|]. now rewrite IH. Qed.

Lemma length_append s t :
  String.length (s ++ t) = String.length s + String.length t.
Proof. induction s as [|a s IH]; simpl; [reflexivity|]. now rewrite IH. Qed.

Lemma substring_append s t :
  substring (String.length s) (String.length t) (s ++ t) = t.
Proof. induction s as [|a s IH]; simpl; [apply substring_all|exact IH]. Qed.

Lemma endsWith_append s t : endsWith (s ++ t) t = true.
Proof.
  unfold endsWith. rewrite length_append.
  replace (String.length s + String.length t - String.length t)
    with (String.length s) by lia.
  rewrite substring_append, String.eqb_refl.
  apply andb_true_iff. split; [|reflexivity]. apply Nat.leb_le. lia.
Qed.

Lemma toLowerCase_append s t :
  toLowerCase (s ++ t) = toLowerCase s ++ toLowerCase t.
Proof. induction s as [|a s IH]; simpl; [reflexivity|]. now rewrite IH. Qed.

(** Whatever is typed, the saved name ends with [.png] up to case. *)
Lemma exportFilename_png filename defaultName :
  endsWith (toLowerCase (exportFilename filename defaultName)) ".png" = true.
Proof.
  unfold exportFilename.
  set (name := match trim filename with EmptyString => defaultName | t => t end).
  destruct (endsWith (toLowerCase name) ".png") eqn:E; simpl; [exact E|].
  rewrite toLowerCase_append. apply endsWith_append.
Qed.

(** C8, as the code has it: the answer is trimmed; an empty result is
    replaced by the default name; [.png] is appended unless the name
    already ends with it, compared without regard to case; the image
    saved is the guide-hidden raster of the chosen canvas; on cancel no
    file is produced; and in both cases the editor state is left as it
    was. *)
Theorem export_filename_chain (type : Mode) (e : Editor) :
  let defaultName := match type with
                     | shirt => "roblox_shirt_design"
                     | pants => "roblox_pants_design"
                     end in
  let canvas := match type with
                | shirt => shirtCanvas e
                | pants => pantsCanvas e
                end in
  (forall filename,
      let name := if String.eqb (trim filename) "" then defaultName
                  else trim filename in
      fst (downloadTexture type (Some filename) e)
      = Some (mkDownload
                (if endsWith (toLowerCase name) ".png" then name
                 else name ++ ".png")
                (fst (getCleanCanvasElement canvas))))
  /\ (forall filename d,
        fst (downloadTexture type (Some filename) e) = Some d ->
        endsWith (toLowerCase (download d)) ".png" = true)
  /\ fst (downloadTexture type None e) = None
  /\ (forall answer, canvas_ok canvas -> snd (downloadTexture type answer e) = e).
Proof.
  intros defaultName canvas. split; [|split; [|split]].
  - intros filename name. unfold downloadTexture.
    fold defaultName. fold canvas. cbn [fst]. do 2 f_equal.
    unfold exportFilename. subst name.
    destruct (trim filename) as [|a s]; simpl;
      now destruct (endsWith _ ".png").
  - intros filename d. unfold downloadTexture. cbn [fst].
    intros [= <-]. cbn [download]. apply exportFilename_png.
  - reflexivity.
  - intros answer Hok. unfold downloadTexture. fold canvas.
    rewrite (clean_restores canvas Hok). subst canvas.
    destruct e as [m sc pc fc bm u], type, answer; reflexivity.
Qed.

(** ** Logo mode *)

Lemma byte_cases (P : Z -> bool) :
  forallb P (zrange 256) = true -> forall v, byte v -> P v = true.
Proof.
  intros H v [Hlo Hhi]. rewrite forallb_forall in H. apply H.
  unfold zrange. apply in_map_iff. exists (Z.to_nat v).
  split; [lia|]. apply in_seq. lia.
Qed.

Lemma DIV255_byte v : byte v -> DIV255 (v * 255) = v.
Proof.
  intros Hv. apply Z.eqb_eq.
  apply (byte_cases (fun v => (DIV255 (v * 255) =? v)%Z)); [|exact Hv].
  vm_compute. reflexivity.
Qed.

(** A fully opaque mask pastes the source, a fully transparent one keeps
    what was there. *)
Lemma BLEND_opaque in1 in2 : byte in2 -> BLEND 255 in1 in2 = in2.
Proof.
  intros H. unfold BLEND. replace (in1 * (255 - 255) + in2 * 255)%Z
    with (in2 * 255)%Z by lia. now apply DIV255_byte.
Qed.

Lemma BLEND_transparent in1 in2 : byte in1 -> BLEND 0 in1 in2 = in1.
Proof.
  intros H. unfold BLEND. replace (in1 * (255 - 0) + in2 * 0)%Z
    with (in1 * 255)%Z by lia. now apply DIV255_byte.
Qed.

Lemma composite_channel_opaque v d :
  byte v ->
  Z.shiftr (SHIFTFORDIV255 (v * (255 * 128) + d * 0 + 128 * 128)) 7 = v.
Proof.
  intros Hv. rewrite Z.mul_0_r, Z.add_0_r. apply Z.eqb_eq.
  apply (byte_cases
           (fun v => (Z.shiftr (SHIFTFORDIV255 (v * (255 * 128) + 128 * 128)) 7 =? v)%Z));
    [|exact Hv].
  vm_compute. reflexivity.
Qed.

(** Where the overlay is opaque the composite is the overlay; where it
    is transparent the composite is what lies below. *)
Lemma composite_opaque dst src :
  byte_pixel src -> alpha src = 255%Z -> composite_pixel dst src = src.
Proof.
  intros (Hr & Hg & Hb & _) Ha. unfold composite_pixel. rewrite Ha.
  change (255 =? 0)%Z with false. cbv iota.
  replace (alpha dst * (255 - 255))%Z with 0%Z by lia.
  change (255 * 255 * 255 * 128 / (255 * 255 + 0))%Z with (255 * 128)%Z.
  change (255 * 128 - 255 * 128)%Z with 0%Z.
  change (SHIFTFORDIV255 (255 * 255 + 0 + 128)) with 255%Z.
  rewrite !composite_channel_opaque by assumption.
  destruct src; simpl in *; now subst.
Qed.

Lemma composite_transparent dst src :
  alpha src = 0%Z -> composite_pixel dst src = dst.
Proof. intros Ha. unfold composite_pixel. now rewrite Ha. Qed.

Lemma zrange_In n x : In x (zrange n) <-> (0 <= x < n)%Z.
Proof.
  unfold zrange. rewrite in_map_iff. split.
  - intros [k [<- Hk]]. apply in_seq in Hk. lia.
  - intros H. exists (Z.to_nat x). split; [lia|]. apply in_seq. lia.
Qed.

Lemma zrange_length n : (0 <= n)%Z -> Z.of_nat (length (zrange n)) = n.
Proof. intros H. unfold zrange. rewrite length_map, length_seq. lia. Qed.

Lemma row_sum_bounds (f : Z -> Z) (l : list Z) (a : Z) :
  (forall x, In x l -> byte (f x)) ->
  (a <= List.fold_right (fun x acc => f x + acc) a l
     <= a + 255 * Z.of_nat (length l))%Z.
Proof.
  induction l as [|x l IH]; intros H; simpl List.fold_right; simpl length.
  - lia.
  - assert (Hx : byte (f x)) by (apply H; now left).
    assert (Hl : forall y, In y l -> byte (f y)) by (intros y Hy; apply H; now right).
    specialize (IH Hl). unfold byte in Hx. lia.
Qed.

Lemma band_sum_bounds (band : RGBA -> Z) (im : Image) :
  (0 <= fst (im_size im))%Z -> (0 <= snd (im_size im))%Z ->
  (forall x y, inside (im_size im) x y -> byte (band (getpixel im x y))) ->
  (0 <= band_sum band im <= 255 * (fst (im_size im) * snd (im_size im)))%Z.
Proof.
  intros Hw Hh Hb. unfold band_sum.
  assert (Hrows : forall ys, (forall y, In y ys -> (0 <= y < snd (im_size im))%Z) ->
    (0 <= List.fold_right
            (fun y acc =>
               List.fold_right (fun x acc' => band (getpixel im x y) + acc')%Z acc
                 (zrange (fst (im_size im)))) 0%Z ys
       <= 255 * (fst (im_size im) * Z.of_nat (length ys)))%Z).
  { induction ys as [|y ys IH]; intros Hys; simpl List.fold_right; simpl length.
    - lia.
    - assert (Hy : (0 <= y < snd (im_size im))%Z) by (apply Hys; now left).
      assert (Hrest : forall y', In y' ys -> (0 <= y' < snd (im_size im))%Z)
        by (intros y' Hy'; apply Hys; now right).
      specialize (IH Hrest).
      match goal with
      | |- (0 <= List.fold_right ?g ?a ?l <= _)%Z =>
          pose proof (row_sum_bounds (fun x => band (getpixel im x y)) l a) as Hrow
      end.
      rewrite zrange_length in Hrow by exact Hw.
      assert (Hbytes : forall x, In x (zrange (fst (im_size im))) ->
                byte (band (getpixel im x y))).
      { intros x Hx. apply Hb. split; [now apply zrange_In|exact Hy]. }
      specialize (Hrow Hbytes). lia. }
  specialize (Hrows (zrange (snd (im_size im)))).
  rewrite zrange_length in Hrows by exact Hh.
  apply Hrows. intros y Hy. now apply zrange_In.
Qed.

Lemma truncated_mean_div s n : (0 < n)%Z -> truncated_mean s n (s / n).
Proof.
  intros Hn. unfold truncated_mean.
  pose proof (Z.mul_div_le s n Hn). pose proof (Z.mul_succ_div_gt s n Hn). lia.
Qed.

Lemma mean_byte s n : (0 < n)%Z -> (0 <= s <= 255 * n)%Z -> byte (s / n).
Proof.
  intros Hn Hs. split.
  - apply Z.div_pos; lia.
  - apply Z.div_le_upper_bound; lia.
Qed.

Lemma logo_box_test x y :
  in_logo_box x y ->
  (LOGO_X <=? x)%Z && (x <? LOGO_X + LOGO_SIZE)%Z
  && (LOGO_Y <=? y)%Z && (y <? LOGO_Y + LOGO_SIZE)%Z = true.
Proof.
  intros [Hx Hy]. rewrite !andb_true_iff.
  repeat split; first [apply Z.leb_le | apply Z.ltb_lt]; lia.
Qed.

Lemma logo_box_test_out x y :
  ~ in_logo_box x y ->
  (LOGO_X <=? x)%Z && (x <? LOGO_X + LOGO_SIZE)%Z
  && (LOGO_Y <=? y)%Z && (y <? LOGO_Y + LOGO_SIZE)%Z = false.
Proof.
  intros H. apply not_true_iff_false. intros Ht. apply H.
  rewrite !andb_true_iff in Ht. destruct Ht as [[[H1 H2] H3] H4].
  apply Z.leb_le in H1, H3. apply Z.ltb_lt in H2, H4. split; lia.
Qed.

(** C9: in logo mode the source is resized to 128x128; the fill colour
    is, band by band, the truncated mean of the resized logo, with full
    opacity; the base image is 585x559 and holds the fill outside the logo
    box at (231, 74) and inside it the logo blended over the fill with the
    logo's alpha as mask (the logo itself where it is opaque, the fill
    where it is transparent); the template is composited on top, so that
    where the template is opaque the result is the template and where it is
    transparent the result is the base; and when the template cannot be
    opened the base image is returned unchanged, with a warning. *)
Theorem logo_mode_composition (ai_image : Image) :
  let logo := resize ai_image (LOGO_SIZE, LOGO_SIZE) in
  let avg := get_average_color logo in
  let fill := mkRGBA (fst (fst avg)) (snd (fst avg)) (snd avg) 255 in
  let base := create_logo_mode_image ai_image in
  byte_image logo ->
  im_size logo = (128, 128)%Z
  /\ truncated_mean (band_sum red logo) (128 * 128) (red fill)
  /\ truncated_mean (band_sum green logo) (128 * 128) (green fill)
  /\ truncated_mean (band_sum blue logo) (128 * 128) (blue fill)
  /\ byte_pixel fill
  /\ im_size base = (585, 559)%Z
  /\ (forall x y, ~ in_logo_box x y -> getpixel base x y = fill)
  /\ (forall x y, in_logo_box x y ->
        let p := getpixel logo (x - LOGO_X) (y - LOGO_Y) in
        getpixel base x y
        = mkRGBA (BLEND (alpha p) (red fill) (red p))
                 (BLEND (alpha p) (green fill) (green p))
                 (BLEND (alpha p) (blue fill) (blue p))
                 (BLEND (alpha p) 255 (alpha p))
        /\ (alpha p = 255%Z -> getpixel base x y = p)
        /\ (alpha p = 0%Z -> getpixel base x y = fill))
  /\ apply_template_overlay None base = (base, true)
  /\ logo_mode None ai_image = base
  /\ (forall template,
        let overlay :=
          if size_eqb (im_size template) (ROBLOX_WIDTH, ROBLOX_HEIGHT)
          then template else resize template (ROBLOX_WIDTH, ROBLOX_HEIGHT) in
        byte_image overlay ->
        exists final,
          apply_template_overlay (Some template) base = (final, false)
          /\ logo_mode (Some template) ai_image = final
          /\ im_size final = (585, 559)%Z
          /\ forall x y,
               getpixel final x y
               = composite_pixel (getpixel base x y) (getpixel overlay x y)
               /\ (inside (585, 559)%Z x y ->
                   alpha (getpixel overlay x y) = 255%Z ->
                   getpixel final x y = getpixel overlay x y)
               /\ (alpha (getpixel overlay x y) = 0%Z ->
                   getpixel final x y = getpixel base x y)).
Proof.
  intros logo avg fill base Hlogo.
  assert (Hsum : forall band, (forall p, byte_pixel p -> byte (band p)) ->
            (0 <= band_sum band logo <= 255 * (128 * 128))%Z).
  { intros band Hband.
    apply (band_sum_bounds band logo).
    - discriminate.
    - discriminate.
    - intros x y Hxy. apply Hband. now apply Hlogo. }
  assert (Hr := Hsum red (fun p H => proj1 H)).
  assert (Hg := Hsum green (fun p H => proj1 (proj2 H))).
  assert (Hb := Hsum blue (fun p H => proj1 (proj2 (proj2 H)))).
  split; [reflexivity|].
  split; [apply truncated_mean_div; lia|].
  split; [apply truncated_mean_div; lia|].
  split; [apply truncated_mean_div; lia|].
  assert (Hfill : byte_pixel fill).
  { unfold byte_pixel, fill, avg, get_average_color. cbn [red green blue alpha fst snd].
    change (im_size logo) with (128, 128)%Z. cbn [fst snd].
    repeat split; try (apply mean_byte; lia); lia. }
  split; [exact Hfill|]. split; [reflexivity|].
  assert (Hin : forall x y, in_logo_box x y ->
            getpixel base x y
            = mkRGBA (BLEND (alpha (getpixel logo (x - LOGO_X) (y - LOGO_Y)))
                        (red fill) (red (getpixel logo (x - LOGO_X) (y - LOGO_Y))))
                     (BLEND (alpha (getpixel logo (x - LOGO_X) (y - LOGO_Y)))
                        (green fill) (green (getpixel logo (x - LOGO_X) (y - LOGO_Y))))
                     (BLEND (alpha (getpixel logo (x - LOGO_X) (y - LOGO_Y)))
                        (blue fill) (blue (getpixel logo (x - LOGO_X) (y - LOGO_Y))))
                     (BLEND (alpha (getpixel logo (x - LOGO_X) (y - LOGO_Y)))
                        255 (alpha (getpixel logo (x - LOGO_X) (y - LOGO_Y))))).
  { intros x y Hbox. unfold base, create_logo_mode_image, paste.
    cbn [getpixel fst snd im_size resize Image_new].
    now rewrite (logo_box_test x y Hbox). }
  split.
  { intros x y Hout. unfold base, create_logo_mode_image, paste.
    cbn [getpixel fst snd im_size resize Image_new].
    now rewrite (logo_box_test_out x y Hout). }
  split.
  { intros x y Hbox p. split; [now apply Hin|].
    assert (Hp : byte_pixel p).
    { apply Hlogo. destruct Hbox as [Hx Hy]. unfold LOGO_X, LOGO_Y, LOGO_SIZE in *.
      split; simpl; lia. }
    destruct Hp as (Hpr & Hpg & Hpb & Hpa).
    destruct Hfill as (Hfr & Hfg & Hfb & Hfa).
    split; intros Ha; rewrite (Hin x y Hbox); fold p; rewrite Ha.
    - rewrite !BLEND_opaque by (assumption || (unfold byte; lia)).
      destruct p; simpl in *; now subst.
    - rewrite !BLEND_transparent by (assumption || (unfold byte; lia)).
      reflexivity. }
  split; [reflexivity|]. split; [reflexivity|].
  intros template overlay Hov.
  assert (Hsize : im_size overlay = (585, 559)%Z).
  { unfold overlay. destruct (size_eqb (im_size template) _) eqn:E; [|reflexivity].
    unfold size_eqb in E. apply andb_true_iff in E as [E1 E2].
    apply Z.eqb_eq in E1, E2. simpl in E1, E2.
    destruct (im_size template) as [a b]. simpl in *. now subst. }
  assert (Hcomp : alpha_composite base overlay
                  = Some (mkImage (585, 559)%Z
                            (fun x y => composite_pixel (getpixel base x y)
                                          (getpixel overlay x y)))).
  { unfold alpha_composite. rewrite Hsize. reflexivity. }
  assert (Happly : apply_template_overlay (Some template) base
                   = (mkImage (585, 559)%Z
                        (fun x y => composite_pixel (getpixel base x y)
                                      (getpixel overlay x y)), false)).
  { unfold apply_template_overlay.
    replace (if negb (size_eqb (im_size template) (ROBLOX_WIDTH, ROBLOX_HEIGHT))
             then resize template (ROBLOX_WIDTH, ROBLOX_HEIGHT) else template)
      with overlay
      by (unfold overlay; now destruct (size_eqb (im_size template) _)).
    now rewrite Hcomp. }
  eexists. split; [exact Happly|]. split.
  { unfold logo_mode. fold base. now rewrite Happly. }
  split; [reflexivity|]. intros x y. cbn [getpixel].
  split; [reflexivity|]. split.
  - intros Hxy Ha. apply composite_opaque; [|exact Ha].
    apply Hov. now rewrite Hsize.
  - intros Ha. now apply composite_transparent.
Qed.

(** * Further properties of the code *)

(** ** Pattern mode *)

Lemma tile_box_hit (x y q r : Z) :
  (0 <= x - 150 * q < 150)%Z -> (0 <= y - 150 * r < 150)%Z ->
  (150 * q <=? x)%Z && (x <? 150 * q + 150)%Z
  && (150 * r <=? y)%Z && (y <? 150 * r + 150)%Z = true.
Proof.
  intros Hx Hy. rewrite !andb_true_iff.
  repeat split; first [apply Z.leb_le | apply Z.ltb_lt]; lia.
Qed.

Lemma tile_box_miss (x y x0 y0 : Z) :
  (x < x0 \/ x0 + 150 <= x \/ y < y0 \/ y0 + 150 <= y)%Z ->
  (x0 <=? x)%Z && (x <? x0 + 150)%Z && (y0 <=? y)%Z && (y <? y0 + 150)%Z = false.
Proof.
  intros H. apply not_true_iff_false. rewrite !andb_true_iff.
  intros [[[H1 H2] H3] H4].
  apply Z.leb_le in H1, H3. apply Z.ltb_lt in H2, H4. lia.
Qed.

Lemma tile_offset (x k : Z) :
  (150 * k <= x < 150 * k + 150)%Z -> (x mod 150 = x - 150 * k)%Z.
Proof.
  intros H. symmetry. apply (Z.mod_unique x 150 k (x - 150 * k)); lia.
Qed.

Lemma tile_box_at (x y x0 y0 : Z) :
  (x0 <= x < x0 + 150)%Z -> (y0 <= y < y0 + 150)%Z ->
  (x0 <=? x)%Z && (x <? x0 + 150)%Z && (y0 <=? y)%Z && (y <? y0 + 150)%Z = true.
Proof.
  intros Hx Hy. rewrite !andb_true_iff.
  repeat split; first [apply Z.leb_le | apply Z.ltb_lt]; lia.
Qed.

Lemma tile_box_bounds (x y x0 y0 : Z) :
  (x0 <=? x)%Z && (x <? x0 + 150)%Z && (y0 <=? y)%Z && (y <? y0 + 150)%Z = true ->
  (x0 <= x < x0 + 150)%Z /\ (y0 <= y < y0 + 150)%Z.
Proof.
  rewrite !andb_true_iff. intros [[[H1 H2] H3] H4].
  apply Z.leb_le in H1, H3. apply Z.ltb_lt in H2, H4. lia.
Qed.

(** X1: the pattern image is 585x559 and every pixel of it is the pixel
    of the 150x150 tile at the position taken modulo 150 in both
    directions: the tiles are copied side by side, cut at the right and
    bottom edges, with nothing blended at the seams. *)
Theorem pattern_mode_tiles (ai_image : Image) :
  im_size (create_pattern_mode_image ai_image) = (585, 559)%Z
  /\ forall x y,
       (0 <= x < ROBLOX_WIDTH)%Z -> (0 <= y < ROBLOX_HEIGHT)%Z ->
       getpixel (create_pattern_mode_image ai_image) x y
       = getpixel (resize ai_image (PATTERN_SIZE, PATTERN_SIZE))
           (x mod 150) (y mod 150).
Proof.
  split; [reflexivity|].
  intros x y Hx Hy. unfold ROBLOX_WIDTH, ROBLOX_HEIGHT in *.
  unfold create_pattern_mode_image.
  change (range_step ROBLOX_WIDTH PATTERN_SIZE) with [0; 150; 300; 450]%Z.
  change (range_step ROBLOX_HEIGHT PATTERN_SIZE) with [0; 150; 300; 450]%Z.
  set (tile := resize ai_image (PATTERN_SIZE, PATTERN_SIZE)).
  cbn [foldl paste_copy getpixel fst snd im_size].
  change (fst (im_size tile)) with 150%Z. change (snd (im_size tile)) with 150%Z.
  assert (Hqx : exists k, (0 <= k <= 3)%Z /\ (150 * k <= x < 150 * k + 150)%Z).
  { exists (x / 150)%Z. pose proof (Z.div_mod x 150 ltac:(lia)).
    pose proof (Z.mod_pos_bound x 150 ltac:(lia)).
    assert (x / 150 < 4)%Z by (apply Z.div_lt_upper_bound; lia).
    split; [|lia]. split; [apply Z.div_pos; lia|lia]. }
  assert (Hqy : exists k, (0 <= k <= 3)%Z /\ (150 * k <= y < 150 * k + 150)%Z).
  { exists (y / 150)%Z. pose proof (Z.div_mod y 150 ltac:(lia)).
    pose proof (Z.mod_pos_bound y 150 ltac:(lia)).
    assert (y / 150 < 4)%Z by (apply Z.div_lt_upper_bound; lia).
    split; [|lia]. split; [apply Z.div_pos; lia|lia]. }
  destruct Hqx as (kx & Hkx & Hbx). destruct Hqy as (ky & Hky & Hby).
  rewrite (tile_offset x kx Hbx), (tile_offset y ky Hby).
  assert (Hcx : (kx = 0 \/ kx = 1 \/ kx = 2 \/ kx = 3)%Z) by lia.
  assert (Hcy : (ky = 0 \/ ky = 1 \/ ky = 2 \/ ky = 3)%Z) by lia.
  destruct Hcx as [-> | [-> | [-> | ->]]];
    destruct Hcy as [-> | [-> | [-> | ->]]];
  repeat match goal with
         | |- (if ?b then _ else _) = _ =>
             destruct b eqn:E;
             [ apply tile_box_bounds in E; f_equal; lia
             | try (rewrite tile_box_at in E by lia; discriminate E); clear E ]
         end.
Qed.

(** ** The download name of the generator page *)

(** X2: the name handed to the download button always ends with [.png];
    a name that already ends with it is kept, any other name (the empty
    one, or one ending in upper-case [.PNG]) gets the suffix appended, and
    applying the rule twice changes nothing more. *)
Theorem download_file_name_png (custom_name : string) :
  endsWith (download_file_name custom_name) ".png" = true
  /\ (endsWith custom_name ".png" = true ->
      download_file_name custom_name = custom_name)
  /\ (endsWith custom_name ".png" = false ->
      download_file_name custom_name = custom_name ++ ".png")
  /\ download_file_name (download_file_name custom_name)
     = download_file_name custom_name.
Proof.
  unfold download_file_name.
  destruct (endsWith custom_name ".png") eqn:E; simpl.
  - rewrite E. simpl. repeat split; try reflexivity; try assumption.
    discriminate.
  - rewrite endsWith_append. simpl. repeat split; try reflexivity.
    discriminate.
Qed.

(** ** Both generation modes *)

Lemma overlay_keeps_size template base_image :
  im_size (fst (apply_template_overlay template base_image)) = im_size base_image.
Proof.
  unfold apply_template_overlay. destruct template as [overlay|]; [|reflexivity].
  unfold alpha_composite.
  destruct (size_eqb (im_size base_image) _); reflexivity.
Qed.

(** X10: whatever the generated image and whatever the template file
    holds (missing, of the right size, or of another size), the image
    produced in logo mode and in pattern mode is 585x559; without a
    template it is the base image itself. *)
Theorem generated_image_size (template : option Image) (ai_image : Image) :
  im_size (logo_mode template ai_image) = (ROBLOX_WIDTH, ROBLOX_HEIGHT)
  /\ im_size (pattern_mode template ai_image) = (ROBLOX_WIDTH, ROBLOX_HEIGHT)
  /\ logo_mode None ai_image = create_logo_mode_image ai_image
  /\ pattern_mode None ai_image = create_pattern_mode_image ai_image.
Proof.
  unfold logo_mode, pattern_mode. rewrite !overlay_keeps_size.
  repeat split; reflexivity.
Qed.

(** ** The average colour *)

Lemma row_sum_const (f : Z -> Z) (l : list Z) (a v : Z) :
  (forall x, In x l -> f x = v) ->
  List.fold_right (fun x acc => f x + acc)%Z a l = (a + v * Z.of_nat (length l))%Z.
Proof.
  induction l as [|x l IH]; intros H; simpl List.fold_right; simpl length.
  - lia.
  - rewrite (H x) by now left. rewrite IH by (intros y Hy; apply H; now right).
    lia.
Qed.

Lemma band_sum_const (band : RGBA -> Z) (im : Image) (c : RGBA) :
  (0 <= fst (im_size im))%Z -> (0 <= snd (im_size im))%Z ->
  (forall x y, inside (im_size im) x y -> getpixel im x y = c) ->
  band_sum band im = (band c * (fst (im_size im) * snd (im_size im)))%Z.
Proof.
  intros Hw Hh Hc. unfold band_sum.
  assert (Hrows : forall ys, (forall y, In y ys -> (0 <= y < snd (im_size im))%Z) ->
    List.fold_right
      (fun y acc =>
         List.fold_right (fun x acc' => band (getpixel im x y) + acc')%Z acc
           (zrange (fst (im_size im)))) 0%Z ys
    = (band c * (fst (im_size im) * Z.of_nat (length ys)))%Z).
  { induction ys as [|y ys IH]; intros Hys; simpl List.fold_right; simpl length.
    - lia.
    - rewrite IH by (intros y' Hy'; apply Hys; now right).
      rewrite (row_sum_const (fun x => band (getpixel im x y)) _ _ (band c)).
      + rewrite zrange_length by exact Hw. lia.
      + intros x Hx. rewrite Hc; [reflexivity|].
        split; [now apply zrange_In | apply Hys; now left]. }
  rewrite Hrows.
  - now rewrite zrange_length by exact Hh.
  - intros y Hy. now apply zrange_In.
Qed.

(** X9: the average colour of an image of one colour is that colour; and
    when the resized logo has one opaque colour everywhere, the logo-mode
    base image has that colour at every pixel. *)
Theorem flat_logo_gives_flat_image (ai_image : Image) (c : RGBA) :
  (forall image,
      (0 < fst (im_size image))%Z -> (0 < snd (im_size image))%Z ->
      (forall x y, inside (im_size image) x y -> getpixel image x y = c) ->
      get_average_color image = (red c, green c, blue c))
  /\ (byte_pixel c -> alpha c = 255%Z ->
      (forall x y, inside (LOGO_SIZE, LOGO_SIZE) x y ->
                   getpixel (resize ai_image (LOGO_SIZE, LOGO_SIZE)) x y = c) ->
      forall x y, getpixel (create_logo_mode_image ai_image) x y = c).
Proof.
  assert (Havg : forall image,
      (0 < fst (im_size image))%Z -> (0 < snd (im_size image))%Z ->
      (forall x y, inside (im_size image) x y -> getpixel image x y = c) ->
      get_average_color image = (red c, green c, blue c)).
  { intros image Hw Hh Hc. unfold get_average_color.
    rewrite !(band_sum_const _ image c) by (lia || assumption).
    rewrite !Z.div_mul by nia. reflexivity. }
  split; [exact Havg|].
  intros Hbyte Ha Hc x y.
  set (logo := resize ai_image (LOGO_SIZE, LOGO_SIZE)) in *.
  assert (Hcol : get_average_color logo = (red c, green c, blue c)).
  { apply Havg; try reflexivity. exact Hc. }
  unfold create_logo_mode_image, paste. fold logo. rewrite Hcol.
  cbn [getpixel fst snd im_size Image_new].
  destruct ((LOGO_X <=? x)%Z && (x <? LOGO_X + fst (im_size logo))%Z
            && (LOGO_Y <=? y)%Z && (y <? LOGO_Y + snd (im_size logo))%Z) eqn:E.
  - assert (Hin : inside (LOGO_SIZE, LOGO_SIZE) (x - LOGO_X) (y - LOGO_Y)).
    { rewrite !andb_true_iff in E. destruct E as [[[E1 E2] E3] E4].
      apply Z.leb_le in E1, E3. apply Z.ltb_lt in E2, E4.
      change (fst (im_size logo)) with LOGO_SIZE in E2.
      change (snd (im_size logo)) with LOGO_SIZE in E4.
      split; simpl; lia. }
    rewrite (Hc _ _ Hin), Ha.
    destruct Hbyte as (Hr & Hg & Hb & _).
    rewrite !BLEND_opaque by (assumption || (unfold byte; lia)).
    destruct c; simpl in *; now subst.
  - destruct c; simpl in *; now subst.
Qed.

(** ** The editor invariant *)

Lemma inactive_setActive c e : inactiveCanvas (setActiveCanvas c e) = inactiveCanvas e.
Proof. unfold inactiveCanvas, setActiveCanvas. now destruct (currentMode e). Qed.

Lemma inactive_sync e :
  editor_ok e -> inactiveCanvas (updateAllTextures e) = inactiveCanvas e.
Proof.
  intros (Hs & Hp & _). destruct (sync_keeps_canvases e Hs Hp) as [Es Ep].
  unfold inactiveCanvas. rewrite mode_sync. now destruct (currentMode e).
Qed.





(** ** Upload and delete *)

Lemma upload_inactive element w h e :
  editor_ok e -> inactiveCanvas (uploadImage element w h e) = inactiveCanvas e.
Proof.
  intros Hok. set (img := uploaded element w h (getActiveCanvas e)).
  assert (Hadd : canvas_ok (canvas_add img (getActiveCanvas e))).
  { apply canvas_ok_add; [now apply editor_ok_active | reflexivity | reflexivity]. }
  assert (H1 : editor_ok (setActiveCanvas (canvas_add img (getActiveCanvas e)) e))
    by now apply editor_ok_setActive.
  pose proof (editor_ok_sync _ H1) as H2.
  assert (Hc : canvas_ok (bringToFront (oid img)
                 (setActiveObject img
                    (getActiveCanvas
                       (updateAllTextures
                          (setActiveCanvas (canvas_add img (getActiveCanvas e)) e)))))).
  { rewrite (getActive_sync _ H1), getActive_setActive.
    apply canvas_ok_bringToFront, canvas_ok_setActive; [exact Hadd|].
    apply existsb_added. }
  pose proof (editor_ok_setActive _ _ H2 Hc) as H3.
  etransitivity; [exact (inactive_sync _ H3)|].
  rewrite inactive_setActive, (inactive_sync _ H1).
  apply inactive_setActive.
Qed.

Lemma delete_inactive e L e' :
  editor_ok e -> getActiveObject (getActiveCanvas e) = Some L ->
  isGuide L = false -> deleteSelected e = (None, e') ->
  inactiveCanvas e' = inactiveCanvas e.
Proof.
  intros Hok HL Hg. unfold deleteSelected. rewrite HL, Hg. intros [= <-].
  assert (Hrem : canvas_ok (canvas_remove (oid L) (getActiveCanvas e)))
    by (apply canvas_ok_remove; now apply editor_ok_active).
  pose proof (editor_ok_setActive _ _ Hok Hrem) as H1.
  pose proof (editor_ok_sync _ H1) as H2.
  assert (Hdis : canvas_ok (discardActiveObject
                   (getActiveCanvas
                      (updateAllTextures
                         (setActiveCanvas
                            (canvas_remove (oid L) (getActiveCanvas e)) e))))).
  { apply canvas_ok_discard. now apply editor_ok_active. }
  pose proof (editor_ok_setActive _ _ H2 Hdis) as H3.
  rewrite (inactive_sync _ H3), inactive_setActive.
  rewrite (inactive_sync _ H1). apply inactive_setActive.
Qed.

(** X4: an upload puts the new image on top of the stack of the active
    canvas, above everything that was there, at position (128, 128) with
    both scale factors 128 / natural width, visible, selectable and
    selected; the canvas has one layer more, the other canvas and the
    editing mode are as before, and the face textures are synchronized. *)
Theorem upload_adds_selected_layer (element : Bitmap) (w h : float) (e : Editor) :
  editor_ok e ->
  let e1 := uploadImage element w h e in
  let img := uploaded element w h (getActiveCanvas e) in
  objects (getActiveCanvas e1) = (objects (getActiveCanvas e) ++ [img])%list
  /\ getActiveObject (getActiveCanvas e1) = Some img
  /\ layers (getActiveCanvas e1) = (layers (getActiveCanvas e) ++ [img])%list
  /\ FabricObject.left img = 128%float /\ FabricObject.top img = 128%float
  /\ FabricObject.scaleX img = (128 / w / 1)%float
  /\ FabricObject.scaleY img = (128 / w / 1)%float
  /\ isGuide img = false /\ visible img = true
  /\ FabricObject.selectable img = true
  /\ (forall o, In o (objects (getActiveCanvas e)) -> oid o <> oid img)
  /\ inactiveCanvas e1 = inactiveCanvas e
  /\ currentMode e1 = currentMode e
  /\ backgroundImage (getActiveCanvas e1) = backgroundImage (getActiveCanvas e)
  /\ textures_synced e1.
Proof.
  intros Hok e1 img.
  destruct (upload_result element w h e Hok) as (Hok1 & Hmode & Hobjs & Hact).
  fold e1 in Hok1, Hmode, Hobjs, Hact. fold img in Hobjs, Hact.
  split; [exact Hobjs|]. split; [exact Hact|]. split.
  { unfold layers. rewrite Hobjs, List.filter_app. reflexivity. }
  do 7 (split; [reflexivity|]). split.
  { intros o Ho Heq. pose proof (is_oid_fresh _ _ Ho) as Hf.
    unfold is_oid in Hf. apply Nat.eqb_neq in Hf. apply Hf. exact Heq. }
  split; [subst e1; now apply upload_inactive|].
  split; [exact Hmode|]. split.
  { destruct (upload_active_canvas element w h e Hok) as [Hcan _].
    fold e1 in Hcan. rewrite Hcan. reflexivity. }
  intros k. subst e1. unfold uploadImage. apply sync_pixels_again.
Qed.

Lemma canvas_eq c c' :
  backgroundColor c = backgroundColor c' ->
  backgroundImage c = backgroundImage c' ->
  objects c = objects c' ->
  activeObject c = activeObject c' ->
  c = c'.
Proof. destruct c, c'; simpl; intros; now subst. Qed.

(** X6: deleting right after an upload undoes it: the stack of the
    active canvas is the one before the upload, nothing is selected, the
    other canvas is untouched and the textures are synchronized. *)
Theorem upload_then_delete (element : Bitmap) (w h : float) (e : Editor) :
  editor_ok e ->
  exists e',
    deleteSelected (uploadImage element w h e) = (None, e')
    /\ getActiveCanvas e' = discardActiveObject (getActiveCanvas e)
    /\ objects (getActiveCanvas e') = objects (getActiveCanvas e)
    /\ inactiveCanvas e' = inactiveCanvas e
    /\ currentMode e' = currentMode e
    /\ textures_synced e'.
Proof.
  intros Hok.
  destruct (upload_result element w h e Hok) as (Hok1 & Hmode1 & Hobjs & Hact).
  destruct (upload_active_canvas element w h e Hok) as [Hcan _].
  set (img := uploaded element w h (getActiveCanvas e)) in *.
  set (e1 := uploadImage element w h e) in *.
  destruct (delete_selected_layer e1 img Hok1 Hact eq_refl)
    as (e' & Hdel & Hok' & Hmode & Hc & Hsync).
  assert (Hcanvas : getActiveCanvas e' = discardActiveObject (getActiveCanvas e)).
  { rewrite Hc. apply canvas_eq.
    - rewrite Hcan. reflexivity.
    - rewrite Hcan. reflexivity.
    - unfold discardActiveObject, canvas_remove. cbn [objects].
      rewrite Hobjs, List.filter_app. cbn [List.filter].
      change (is_oid (oid img) img) with (Nat.eqb (oid img) (oid img)).
      rewrite Nat.eqb_refl. cbn [negb]. rewrite List.app_nil_r.
      apply filter_all. intros x Hx. apply negb_true_iff.
      now apply is_oid_fresh.
    - reflexivity. }
  exists e'. split; [exact Hdel|]. split; [exact Hcanvas|].
  split; [now rewrite Hcanvas|]. split.
  - rewrite (delete_inactive e1 img e' Hok1 Hact eq_refl Hdel).
    subst e1. now apply upload_inactive.
  - split; [now rewrite Hmode|exact Hsync].
Qed.

(** ** More on fit to zone *)



Lemma fitToZone_active_canvas zoneName zone e L e' :
  editor_ok e ->
  getActiveObject (getActiveCanvas e) = Some L ->
  assoc zoneName FIT_ZONES = Some zone ->
  fitToZone zoneName e = (None, e') ->
  backgroundColor (getActiveCanvas e') = backgroundColor (getActiveCanvas e)
  /\ backgroundImage (getActiveCanvas e') = backgroundImage (getActiveCanvas e)
  /\ activeObject (getActiveCanvas e') = activeObject (getActiveCanvas e).
Proof.
  intros Hok HL Hz. unfold fitToZone. rewrite HL, Hz. intros [= <-].
  set (c2 := bringToFront (oid L) _).
  assert (Hc2 : canvas_ok c2).
  { apply canvas_ok_bringToFront, canvas_ok_update; auto.
    now apply editor_ok_active. }
  pose proof (editor_ok_setActive _ _ Hok Hc2) as H1.
  rewrite (getActive_sync _ H1), getActive_setActive.
  repeat split; reflexivity.
Qed.

Lemma filter_others_twice i (l : list FObject) o :
  oid o = i ->
  List.filter (fun x => negb (is_oid i x))
    (List.filter (fun x => negb (is_oid i x)) l ++ [o])%list
  = List.filter (fun x => negb (is_oid i x)) l.
Proof.
  intros Ho. rewrite List.filter_app. simpl.
  unfold is_oid at 3. rewrite Ho, Nat.eqb_refl. simpl. rewrite List.app_nil_r.
  apply filter_all. intros x Hx. now apply filter_In in Hx.
Qed.

(** X8: fitting the selected object to a zone a second time changes
    nothing: the active canvas, the other canvas and the pixels of every
    face texture are the same as after the first fit. *)
Theorem fitToZone_twice (zoneName : string) (zone : Region) (e : Editor) (L : FObject) :
  editor_ok e ->
  getActiveObject (getActiveCanvas e) = Some L ->
  assoc zoneName FIT_ZONES = Some zone ->
  exists e1 e2,
    fitToZone zoneName e = (None, e1)
    /\ fitToZone zoneName e1 = (None, e2)
    /\ getActiveCanvas e2 = getActiveCanvas e1
    /\ inactiveCanvas e2 = inactiveCanvas e1
    /\ currentMode e2 = currentMode e1
    /\ forall k, pixels <$> faceCanvases e2 !! k = pixels <$> faceCanvases e1 !! k.
Proof.
  intros Hok HL Hz.
  destruct (fitToZone_selected zoneName zone e L Hok HL Hz)
    as (e1 & Hfit1 & Hok1 & Hmode1 & Hobjs1 & Hact1).
  destruct (fitToZone_selected zoneName zone e1 _ Hok1 Hact1 Hz)
    as (e2 & Hfit2 & Hok2 & Hmode2 & Hobjs2 & Hact2).
  destruct (fitToZone_active_canvas _ _ _ _ _ Hok1 Hact1 Hz Hfit2)
    as (Hbg & Hbgi & Hactive).
  exists e1, e2. split; [exact Hfit1|]. split; [exact Hfit2|].
  assert (Hcanvas : getActiveCanvas e2 = getActiveCanvas e1).
  { apply canvas_eq; try assumption.
    rewrite Hobjs2, Hobjs1. rewrite filter_others_twice by reflexivity.
    f_equal. }
  split; [exact Hcanvas|].
  assert (Hin : inactiveCanvas e2 = inactiveCanvas e1).
  { pose proof (fitToZone_other_canvas _ _ _ _ _ Hok1 Hact1 Hz Hfit2) as Ho.
    unfold inactiveCanvas. rewrite Hmode2. now destruct (currentMode e1). }
  split; [exact Hin|]. split; [exact Hmode2|].
  intros k.
  assert (He1 : exists x, e1 = updateAllTextures x).
  { unfold fitToZone in Hfit1. rewrite HL, Hz in Hfit1.
    injection Hfit1 as <-. eauto. }
  assert (He2 : exists c, e2 = updateAllTextures (setActiveCanvas c e1)
                          /\ c = getActiveCanvas e2).
  { pose proof Hfit2 as Hf. unfold fitToZone in Hf. rewrite Hact1, Hz in Hf.
    injection Hf as <-. eexists. split; [reflexivity|].
    assert (Hc2 : canvas_ok (bringToFront (oid (fitted zone L))
                     (update_object (oid (fitted zone L))
                        (set_placement (num (rx zone)) (num (ry zone))
                           (num (rw zone) / FabricObject.width (fitted zone L))%float
                           (num (rh zone) / FabricObject.height (fitted zone L))%float)
                        (getActiveCanvas e1)))).
    { apply canvas_ok_bringToFront, canvas_ok_update; auto.
      now apply editor_ok_active. }
    pose proof (editor_ok_setActive _ _ Hok1 Hc2) as H1.
    symmetry. etransitivity; [exact (getActive_sync _ H1)|].
    apply getActive_setActive. }
  destruct He1 as [x Hx]. destruct He2 as (c & He2 & Hc).
  assert (Hset : setActiveCanvas c e1 = e1).
  { rewrite Hc, Hcanvas. unfold setActiveCanvas, getActiveCanvas.
    destruct e1 as [m sc pc fc bm u]. simpl. now destruct m. }
  rewrite He2, Hset, Hx. apply sync_pixels_again.
Qed.

(** ** The ghost template *)

(** X11: once the ghost template has loaded it is part of every
    guide-hidden raster, hence of the face textures and of the exported
    file: the raster is the layers painted over the template, itself
    painted at 30% opacity and scaled to the canvas width over the
    background colour; loading it changes neither the stack nor the
    selection, keeps the invariant and runs no synchronization of its
    own. *)
Theorem ghost_template_in_raster (img : Bitmap) (w h : float) (c : Canvas) :
  fst (getCleanCanvasElement (ghostLoaded img w h c))
  = renderObjects (layers c)
      (paintObject (ghost_image img w h) (solid (cssColor (backgroundColor c))))
  /\ FabricObject.opacity (ghost_image img w h) = 0.3%float
  /\ FabricObject.scaleX (ghost_image img w h) = (num CANVAS_W / w / 1)%float
  /\ isGuide (ghost_image img w h) = false
  /\ objects (ghostLoaded img w h c) = objects c
  /\ activeObject (ghostLoaded img w h c) = activeObject c
  /\ (canvas_ok c -> canvas_ok (ghostLoaded img w h c)).
Proof.
  split; [rewrite clean_raster; reflexivity|].
  repeat split; try reflexivity. apply canvas_ok_ghost.
Qed.

(** ** Every mutation ends with synchronized textures *)

(** X12: after an upload, after a fit that found a selection and a zone,
    after a deletion that removed a layer, and after a synchronization,
    the face textures hold what a synchronization would draw. *)
Theorem mutations_end_synchronized (e : Editor) :
  textures_synced (updateAllTextures e)
  /\ (forall element w h, textures_synced (uploadImage element w h e))
  /\ (forall zoneName zone L,
        getActiveObject (getActiveCanvas e) = Some L ->
        assoc zoneName FIT_ZONES = Some zone ->
        textures_synced (snd (fitToZone zoneName e)))
  /\ (forall L,
        getActiveObject (getActiveCanvas e) = Some L -> isGuide L = false ->
        textures_synced (snd (deleteSelected e))).
Proof.
  split; [intros k; apply sync_pixels_again|].
  split; [intros element w h k; unfold uploadImage; apply sync_pixels_again|].
  split.
  - intros zoneName zone L HL Hz k. unfold fitToZone. rewrite HL, Hz.
    apply sync_pixels_again.
  - intros L HL Hg k. unfold deleteSelected. rewrite HL, Hg.
    apply sync_pixels_again.
Qed.

(** ** The body rig *)

Lemma rig_keys_checked :
  forallb (fun k => match assoc (fst k) BODY_PARTS with
                    | Some part => match face_region part (snd k) with
                                   | Some _ => true
                                   | None => false
                                   end
                    | None => false
                    end)
    (List.map fst (map_to_list (fst createBodyParts))) = true.
Proof. vm_compute. reflexivity. Qed.

(** X5: the rig gives every part six materials in the order right, left,
    top, bottom, front, back: the material of the face's own canvas where
    the part declares a region for the face, the shared skin material
    where it does not; a face canvas exists exactly for the faces with a
    declared region, thirty in all and none for the head, each filled
    with the colour of its texture source. *)
Theorem rig_materials_and_canvases :
  (forall name part,
      In (name, part) BODY_PARTS ->
      assoc name (snd createBodyParts)
      = Some (List.map (fun f => match face_region part f with
                                 | Some _ => faceMaterial name f
                                 | None => skinMaterial
                                 end) FACE_ORDER))
  /\ (forall name part face r,
        In (name, part) BODY_PARTS -> face_region part face = Some r ->
        fst createBodyParts !! (name, face)
        = Some (mkFaceTex (solid (initial_fill (textureSource part))) 1))
  /\ (forall name face t,
        fst createBodyParts !! (name, face) = Some t ->
        exists part r,
          In (name, part) BODY_PARTS /\ face_region part face = Some r)
  /\ (forall face, fst createBodyParts !! ("head", face) = None)
  /\ base.size (fst createBodyParts) = 30.
Proof.
  assert (Hkeys : forall name face t,
            fst createBodyParts !! (name, face) = Some t ->
            exists part r,
              In (name, part) BODY_PARTS /\ face_region part face = Some r).
  { intros name face t Ht.
    pose proof rig_keys_checked as Hall.
    remember (fst createBodyParts) as m eqn:Hm. clear Hm.
    rewrite forallb_forall in Hall.
    specialize (Hall (name, face)). cbn [fst snd] in Hall.
    assert (Hin : In (name, face) (List.map fst (map_to_list m))).
    { apply (List.in_map fst (map_to_list m) ((name, face), t)).
      apply list_elem_of_In. apply elem_of_map_to_list. exact Ht. }
    specialize (Hall Hin).
    destruct (assoc name BODY_PARTS) as [part|] eqn:Hp; [|discriminate].
    destruct (face_region part face) as [r|] eqn:Hr; [|discriminate].
    exists part, r. split; [now apply assoc_In|exact Hr]. }
  split.
  { intros name part Hin. simpl in Hin.
    repeat (destruct Hin as [Hin|Hin]; [injection Hin as <- <-; reflexivity|]).
    contradiction. }
  split; [exact initial_textures|]. split; [exact Hkeys|]. split.
  - intros face. destruct (fst createBodyParts !! ("head", face)) as [t|] eqn:E;
      [|reflexivity].
    destruct (Hkeys _ _ _ E) as (part & r & Hin & Hr). exfalso.
    pose proof (assoc_In_NoDup _ _ _ BODY_PARTS_NoDup Hin) as Ha.
    injection Ha as <-. unfold face_region in Hr. simpl in Hr.
    repeat (destruct (String.eqb face _); [discriminate|]). discriminate.
  - vm_compute. reflexivity.
Qed.

End Program.

(** * The model at the reference primitives *)

Lemma face_regions_in_bounds_witness :
  region_in_canvas (mkRegion 520 388 64 128)
  /\ forall x y, (520 <= x < 520 + 64)%Z -> (388 <= y < 388 + 128)%Z ->
                 (0 <= x < CANVAS_W)%Z /\ (0 <= y < CANVAS_H)%Z.
Proof.
  destruct face_regions_in_bounds as [H _].
  eapply (H "leftArm" _ "back").
  - simpl. right. right. left. reflexivity.
  - reflexivity.
Defined.

Abbreviation ref_init := (initEditor ref_measureText).
Abbreviation ref_sync :=
  (updateAllTextures ref_paintObject ref_paintControls ref_drawImage).
Abbreviation ref_upload :=
  (uploadImage ref_paintObject ref_paintControls ref_drawImage).
Abbreviation ref_fit :=
  (fitToZone ref_paintObject ref_paintControls ref_drawImage).
Abbreviation ref_delete :=
  (deleteSelected ref_paintObject ref_paintControls ref_drawImage).
Abbreviation ref_clean :=
  (getCleanCanvasElement ref_paintObject ref_paintControls).
Abbreviation ref_download :=
  (downloadTexture ref_paintObject ref_paintControls).

Lemma ref_init_ok : editor_ok ref_init.
Proof. apply editor_ok_init. Qed.

Lemma ref_uploaded_ok w h :
  editor_ok (ref_upload (solid (cssColor "#ffffff")) w h ref_init).
Proof.
  destruct (upload_result ref_paintObject ref_paintControls ref_drawImage
              (solid (cssColor "#ffffff")) w h ref_init ref_init_ok) as [H _].
  exact H.
Qed.

Lemma sync_copies_face_regions_witness :
  (exists t,
      faceCanvases ref_init !! ("rightLeg", "bottom") = Some t
      /\ faceCanvases (ref_sync ref_init) !! ("rightLeg", "bottom")
         = Some (mkFaceTex
                   (ref_drawImage (fst (ref_clean (pantsCanvas ref_init)))
                      (mkRegion 64 516 64 43)
                      (fillRect (cssColor "#ffffff") (pixels t)))
                   (S (version t))))
  /\ (exists e2 t,
        ref_fit "front" (ref_upload (solid (cssColor "#ffffff")) 64 64 ref_init)
        = (None, e2)
        /\ faceCanvases (ref_sync e2) !! ("torso", "front") = Some t
        /\ pixels t
           = ref_drawImage (fst (ref_clean (shirtCanvas e2)))
               (mkRegion 128 128 128 128) (solid (cssColor "#ffffff"))).
Proof.
  destruct (sync_copies_face_regions ref_paintObject
              ref_paintControls ref_drawImage ref_init) as (H1 & _ & _ & H4).
  - vm_compute. reflexivity.
  - split.
    + eapply (H1 "rightLeg" _ "bottom").
      * simpl. do 3 right. left. reflexivity.
      * reflexivity.
      * reflexivity.
    + apply H4; [exact ref_init_ok | reflexivity].
Defined.

Lemma clean_raster_excludes_guides_witness :
  fst (ref_clean (initCanvas ref_measureText))
  = renderBackground ref_paintObject (initCanvas ref_measureText)
  /\ snd (ref_clean (initCanvas ref_measureText)) = initCanvas ref_measureText.
Proof.
  destruct (clean_raster_excludes_guides ref_paintObject ref_paintControls
              (initCanvas ref_measureText)) as (_ & _ & H3 & H4).
  split; [apply H3; reflexivity | apply H4; vm_compute; reflexivity].
Defined.

Lemma sync_without_layers_witness :
  exists t,
    faceCanvases (ref_sync ref_init) !! ("leftLeg", "front") = Some t
    /\ pixels t
       = ref_drawImage (renderBackground ref_paintObject (pantsCanvas ref_init))
           (mkRegion 455 388 64 128) (solid (cssColor "#ffffff"))
    /\ forall i j, pixels t i j = cssColor "#ffffff".
Proof.
  destruct (sync_without_layers ref_measureText ref_paintObject
              ref_paintControls ref_drawImage ref_init) as (H1 & _).
  - vm_compute. reflexivity.
  - reflexivity.
  - reflexivity.
  - evar (part : BodyPart).
    destruct (H1 "leftLeg" part "front" (mkRegion 455 388 64 128)
                (pantsCanvas ref_init)) as (t & Ht & Hpix & Hwhite);
      subst part.
    + simpl. do 4 right. left. reflexivity.
    + reflexivity.
    + reflexivity.
    + exists t. split; [exact Ht|]. split; [exact Hpix|].
      apply Hwhite; [reflexivity | reflexivity |].
      intros i j. unfold ref_drawImage, solid.
      destruct ((0 <=? i)%Z && (i <? 128)%Z && (0 <=? j)%Z && (j <? 128)%Z);
        reflexivity.
Defined.

(** Counterexample to C3 as stated: with no layer on either canvas, the
    front face of the right leg is white after a synchronization, not the
    denim blue it was created with. *)
Lemma sync_zero_layers_pants_not_denim :
  layers (shirtCanvas ref_init) = [] /\ layers (pantsCanvas ref_init) = []
  /\ exists t0 t,
       faceCanvases ref_init !! ("rightLeg", "front") = Some t0
       /\ pixels t0 0%Z 0%Z = initial_fill src_pants
       /\ faceCanvases (ref_sync ref_init) !! ("rightLeg", "front") = Some t
       /\ pixels t 0%Z 0%Z = mkRGBA 255 255 255 255
       /\ pixels t 0%Z 0%Z <> initial_fill src_pants.
Proof.
  split; [reflexivity|]. split; [reflexivity|].
  eexists _, _. split; [vm_compute; reflexivity|].
  split; [reflexivity|]. split; [vm_compute; reflexivity|].
  split; [reflexivity|]. discriminate.
Qed.

Lemma ref_uploaded_active w h :
  getActiveObject
    (getActiveCanvas (ref_upload (solid (cssColor "#ffffff")) w h ref_init))
  = Some (uploaded (solid (cssColor "#ffffff")) w h (getActiveCanvas ref_init)).
Proof.
  destruct (upload_result ref_paintObject ref_paintControls ref_drawImage
              (solid (cssColor "#ffffff")) w h ref_init ref_init_ok)
    as (_ & _ & _ & H).
  exact H.
Qed.

Lemma fitToZone_places_layer_witness :
  (exists e' L',
      ref_fit "l_arm" (ref_upload (solid (cssColor "#ffffff")) 32 49 ref_init)
      = (None, e')
      /\ getActiveObject (getActiveCanvas e') = Some L'
      /\ last (objects (getActiveCanvas e')) = Some L'
      /\ FabricObject.left L' = 455%float /\ FabricObject.top L' = 388%float
      /\ FabricObject.scaleX L' = 2%float
      /\ js_eq (FabricObject.width L' * FabricObject.scaleX L')%float 64
      /\ (js_eq (FabricObject.height L' * FabricObject.scaleY L')%float 128
          \/ js_eq (FabricObject.height L' * FabricObject.scaleY L')%float
               (next_down 128)))
  /\ ref_fit "l_arm" ref_init = (Some "Select an image first!", ref_init).
Proof.
  destruct (fitToZone_places_layer ref_paintObject ref_paintControls
              ref_drawImage
              (ref_upload (solid (cssColor "#ffffff")) 32 49 ref_init)
              "l_arm" (mkRegion 455 388 64 128) eq_refl) as (H1 & _).
  destruct (H1 _ (ref_uploaded_ok 32 49) (ref_uploaded_active 32 49))
    as (e' & L' & Hfit & _ & Hact & _ & Hlast & _ & _ & _ & Hl & Ht & Hsx
        & _ & _ & _ & Hw & Hh).
  split.
  - exists e', L'. split; [exact Hfit|]. split; [exact Hact|].
    split; [exact Hlast|]. split; [exact Hl|]. split; [exact Ht|].
    split; [exact Hsx|]. split.
    + destruct (Hw 32%Z) as [_ Hex]; [unfold MAX_SIZE; lia | reflexivity |].
      apply Hex. left. lia.
    + destruct (Hh 49%Z) as [Hor _]; [unfold MAX_SIZE; lia | reflexivity |].
      exact Hor.
  - destruct (fitToZone_places_layer ref_paintObject ref_paintControls
                ref_drawImage ref_init "l_arm" (mkRegion 455 388 64 128) eq_refl)
      as (_ & H3).
    apply H3. reflexivity.
Defined.

(** Counterexample to C2 as stated: an image 49 pixels wide fitted to the
    front zone gets the scale 128/49, and 49 times that scale is not 128. *)
Lemma fit_front_width_49_not_exact :
  exists e' L',
    ref_fit "front" (ref_upload (solid (cssColor "#ffffff")) 49 49 ref_init)
    = (None, e')
    /\ getActiveObject (getActiveCanvas e') = Some L'
    /\ FabricObject.width L' = 49%float
    /\ FabricObject.scaleX L' = (128 / 49)%float
    /\ (FabricObject.width L' * FabricObject.scaleX L')%float
       = 127.99999999999999%float
    /\ (FabricObject.width L' * FabricObject.scaleX L')%float <> num 128.
Proof.
  destruct (fitToZone_selected ref_paintObject ref_paintControls ref_drawImage
              "front" (mkRegion 128 128 128 128) _ _
              (ref_uploaded_ok 49 49) (ref_uploaded_active 49 49) eq_refl)
    as (e' & Hfit & _ & _ & _ & Hact).
  exists e', (fitted (mkRegion 128 128 128 128)
                (uploaded (solid (cssColor "#ffffff")) 49 49
                   (getActiveCanvas ref_init))).
  split; [exact Hfit|]. split; [exact Hact|].
  split; [reflexivity|]. split; [reflexivity|].
  split; [vm_compute; reflexivity|].
  intros H. apply (f_equal (fun x => PrimFloat.eqb x (num 128))) in H.
  vm_compute in H. discriminate H.
Qed.

Lemma switchMode_keeps_layers_witness :
  switchMode shirt ref_init = ref_init
  /\ shirtHidden (ui (switchMode pants ref_init)) = true
  /\ pantsHidden (ui (switchMode pants ref_init)) = false.
Proof.
  destruct (switchMode_keeps_layers ref_init shirt) as (H1 & _).
  destruct (switchMode_keeps_layers ref_init pants) as (_ & _ & _ & _ & _ & _ & _ & H8).
  split; [apply H1; reflexivity|].
  destruct H8 as (Ha & Hb & _); [discriminate|].
  rewrite Ha, Hb. split; reflexivity.
Defined.

Lemma deleteSelected_cases_witness :
  ref_delete ref_init = (Some "Select an image to delete!", ref_init)
  /\ exists e',
       ref_delete (ref_upload (solid (cssColor "#ffffff")) 64 64 ref_init)
       = (None, e')
       /\ layers (getActiveCanvas e') = []
       /\ getActiveObject (getActiveCanvas e') = None.
Proof.
  split.
  - destruct (deleteSelected_cases ref_paintObject ref_paintControls
                ref_drawImage ref_init) as (H1 & _).
    apply H1. reflexivity.
  - destruct (deleteSelected_cases ref_paintObject ref_paintControls
                ref_drawImage
                (ref_upload (solid (cssColor "#ffffff")) 64 64 ref_init))
      as (_ & _ & H3).
    destruct (H3 _ (ref_uploaded_ok 64 64) (ref_uploaded_active 64 64) eq_refl)
      as (e' & Hdel & _ & _ & _ & _ & Hone & Hnone & _).
    exists e'. split; [exact Hdel|]. split; [|exact Hnone].
    apply Hone.
    destruct (upload_result ref_paintObject ref_paintControls ref_drawImage
                (solid (cssColor "#ffffff")) 64 64 ref_init ref_init_ok)
      as (_ & _ & Hobjs & _).
    unfold layers. rewrite Hobjs. reflexivity.
Defined.

Lemma export_filename_chain_witness :
  ref_download shirt None ref_init = (None, ref_init)
  /\ download <$> fst (ref_download pants (Some "  jeans ") ref_init)
     = Some "jeans.png"
  /\ download <$> fst (ref_download pants (Some "   ") ref_init)
     = Some "roblox_pants_design.png".
Proof.
  destruct (export_filename_chain ref_paintObject ref_paintControls shirt ref_init)
    as (_ & _ & Hnone & Hsame).
  destruct (export_filename_chain ref_paintObject ref_paintControls pants ref_init)
    as (Hname & _).
  split.
  - rewrite (surjective_pairing (ref_download shirt None ref_init)).
    rewrite Hnone, Hsame; [reflexivity|]. vm_compute. reflexivity.
  - split.
    + rewrite (Hname "  jeans "). reflexivity.
    + rewrite (Hname "   "). reflexivity.
Defined.

(** Counterexample to C8 as stated: a name that ends with [.PNG] does not
    end with [.png], yet nothing is appended to it. *)
Lemma export_uppercase_suffix_kept :
  endsWith "Logo.PNG" ".png" = false
  /\ download <$> fst (ref_download shirt (Some "Logo.PNG") ref_init)
     = Some "Logo.PNG"
  /\ exportFilename_spec "Logo.PNG" "roblox_shirt_design" = "Logo.PNG.png"
  /\ exportFilename "Logo.PNG" "roblox_shirt_design"
     <> exportFilename_spec "Logo.PNG" "roblox_shirt_design".
Proof.
  split; [reflexivity|]. split; [reflexivity|]. split; [reflexivity|].
  discriminate.
Qed.

Lemma logo_mode_composition_witness :
  let ai := Image_new (1024, 1024)%Z (mkRGBA 200 100 50 255) in
  let template := Image_new (585, 559)%Z (mkRGBA 0 0 0 0) in
  getpixel (create_logo_mode_image ref_lanczos ai) 0%Z 0%Z
     = mkRGBA 200 100 50 255
  /\ getpixel (create_logo_mode_image ref_lanczos ai) 300%Z 100%Z
     = mkRGBA 200 100 50 255
  /\ getpixel (logo_mode ref_lanczos (Some template) ai) 300%Z 100%Z
     = mkRGBA 200 100 50 255.
Proof.
  intros ai template.
  destruct (logo_mode_composition ref_lanczos ai)
    as (_ & _ & _ & _ & _ & _ & Hout & Hin & _ & _ & Hov).
  - intros x y _. repeat split; discriminate.
  - split.
    + rewrite Hout; [vm_compute; reflexivity|].
      unfold in_logo_box, LOGO_X, LOGO_Y, LOGO_SIZE. lia.
    + split.
      * destruct (Hin 300 100)%Z as (_ & Hop & _).
        { unfold in_logo_box, LOGO_X, LOGO_Y, LOGO_SIZE. lia. }
        rewrite Hop; reflexivity.
      * destruct (Hov template) as (final & _ & Hlogo & _ & Hpix).
        { intros x y _. repeat split; discriminate. }
        rewrite Hlogo.
        destruct (Hpix 300 100)%Z as (_ & _ & Htr).
        rewrite Htr by reflexivity.
        destruct (Hin 300 100)%Z as (_ & Hop & _).
        { unfold in_logo_box, LOGO_X, LOGO_Y, LOGO_SIZE. lia. }
        rewrite Hop; reflexivity.
Defined.

(** ** Witnesses of the further properties *)

Lemma pattern_mode_tiles_witness :
  let ai := Image_new (1024, 1024)%Z (mkRGBA 10 20 30 255) in
  getpixel (create_pattern_mode_image ref_lanczos ai) 584%Z 558%Z
  = getpixel (resize ref_lanczos ai (PATTERN_SIZE, PATTERN_SIZE)) 134%Z 108%Z.
Proof.
  intros ai. destruct (pattern_mode_tiles ref_lanczos ai) as [_ H].
  apply (H 584 558)%Z; unfold ROBLOX_WIDTH, ROBLOX_HEIGHT; lia.
Defined.

Lemma download_file_name_png_witness :
  download_file_name "roblox_shirt.png" = "roblox_shirt.png"
  /\ download_file_name "Logo.PNG" = "Logo.PNG.png"
  /\ download_file_name "" = ".png".
Proof.
  split; [|split].
  - destruct (download_file_name_png "roblox_shirt.png") as (_ & H & _).
    apply H. reflexivity.
  - destruct (download_file_name_png "Logo.PNG") as (_ & _ & H & _).
    apply H. reflexivity.
  - destruct (download_file_name_png "") as (_ & _ & H & _).
    apply H. reflexivity.
Defined.


Lemma upload_adds_selected_layer_witness :
  length (objects (getActiveCanvas
                     (ref_upload (solid (cssColor "#ffffff")) 64 32 ref_init)))
  = 9
  /\ length (layers (getActiveCanvas
                       (ref_upload (solid (cssColor "#ffffff")) 64 32 ref_init)))
     = 1
  /\ inactiveCanvas (ref_upload (solid (cssColor "#ffffff")) 64 32 ref_init)
     = inactiveCanvas ref_init.
Proof.
  destruct (upload_adds_selected_layer ref_paintObject ref_paintControls
              ref_drawImage (solid (cssColor "#ffffff")) 64 32 ref_init
              ref_init_ok)
    as (Hobjs & _ & Hlayers & _ & _ & _ & _ & _ & _ & _ & _ & Hother & _).
  split; [rewrite Hobjs; reflexivity|]. split; [rewrite Hlayers; reflexivity|].
  exact Hother.
Defined.

Lemma rig_materials_and_canvases_witness :
  assoc "torso" (snd createBodyParts)
  = Some [faceMaterial "torso" "right"; faceMaterial "torso" "left";
          faceMaterial "torso" "top"; faceMaterial "torso" "bottom";
          faceMaterial "torso" "front"; faceMaterial "torso" "back"]
  /\ fst createBodyParts !! ("leftLeg", "top")
     = Some (mkFaceTex (solid (mkRGBA 61 90 128 255)) 1).
Proof.
  destruct rig_materials_and_canvases as (H1 & H2 & _).
  split.
  - rewrite (H1 "torso" _ (or_introl eq_refl)). reflexivity.
  - rewrite (H2 "leftLeg" _ "top" (mkRegion 455 323 64 64)
               (or_intror (or_intror (or_intror (or_intror (or_introl eq_refl)))))
               eq_refl).
    reflexivity.
Defined.

Lemma upload_then_delete_witness :
  exists e',
    ref_delete (ref_upload (solid (cssColor "#ffffff")) 64 64 ref_init) = (None, e')
    /\ objects (getActiveCanvas e') = objects (getActiveCanvas ref_init).
Proof.
  destruct (upload_then_delete ref_paintObject ref_paintControls ref_drawImage
              (solid (cssColor "#ffffff")) 64 64 ref_init ref_init_ok)
    as (e' & Hdel & _ & Hobjs & _).
  exists e'. split; assumption.
Defined.


Lemma fitToZone_twice_witness :
  exists e1 e2,
    ref_fit "r_arm" (ref_upload (solid (cssColor "#ffffff")) 49 49 ref_init)
    = (None, e1)
    /\ ref_fit "r_arm" e1 = (None, e2)
    /\ getActiveCanvas e2 = getActiveCanvas e1.
Proof.
  destruct (fitToZone_twice ref_paintObject ref_paintControls ref_drawImage
              "r_arm" (mkRegion 64 388 64 128) _ _
              (ref_uploaded_ok 49 49) (ref_uploaded_active 49 49) eq_refl)
    as (e1 & e2 & H1 & H2 & H3 & _).
  exists e1, e2. repeat split; assumption.
Defined.

Lemma flat_logo_gives_flat_image_witness :
  let ai := Image_new (1024, 1024)%Z (mkRGBA 200 100 50 255) in
  get_average_color (Image_new (3, 2)%Z (mkRGBA 200 100 50 255)) = (200, 100, 50)%Z
  /\ getpixel (create_logo_mode_image ref_lanczos ai) 300%Z 100%Z
     = mkRGBA 200 100 50 255.
Proof.
  intros ai.
  destruct (flat_logo_gives_flat_image ref_lanczos ai (mkRGBA 200 100 50 255))
    as (H1 & H2).
  split.
  - apply H1; [reflexivity | reflexivity | reflexivity].
  - apply H2; [repeat split; discriminate | reflexivity | reflexivity].
Defined.

Lemma ghost_template_in_raster_witness :
  canvas_ok (ghostLoaded (solid (cssColor "#ffffff")) 585 559
               (initCanvas ref_measureText)).
Proof.
  destruct (ghost_template_in_raster ref_paintObject ref_paintControls
              (solid (cssColor "#ffffff")) 585 559 (initCanvas ref_measureText))
    as (_ & _ & _ & _ & _ & _ & H).
  apply H. vm_compute. reflexivity.
Defined.

Lemma mutations_end_synchronized_witness :
  textures_synced ref_paintObject ref_paintControls ref_drawImage
    (snd (ref_fit "front" (ref_upload (solid (cssColor "#ffffff")) 64 64 ref_init)))
  /\ textures_synced ref_paintObject ref_paintControls ref_drawImage
       (snd (ref_delete (ref_upload (solid (cssColor "#ffffff")) 64 64 ref_init))).
Proof.
  destruct (mutations_end_synchronized ref_paintObject ref_paintControls
              ref_drawImage
              (ref_upload (solid (cssColor "#ffffff")) 64 64 ref_init))
    as (_ & _ & Hfit & Hdel).
  split.
  - eapply Hfit; [apply ref_uploaded_active | reflexivity].
  - eapply Hdel; [apply ref_uploaded_active | reflexivity].
Defined.
